(** * The resilient voice pipeline of the CustomGPT widget backend

    A shallow embedding of
      - [retry_utils.py]  ([RetryConfig], [should_retry], [retry_async]),
      - [fallback.py]     ([FallbackResult], [execute_fallback_chain],
                           [stt_text_only_mode], [STT_FALLBACK_CHAIN]),
      - [stt.py]          ([_transcribe_internal], [transcribe]),
      - [routes/inference.py] ([unified_inference]),
    followed by the properties of the specification that concern them.

    Python values are modelled as follows (the interpreter is CPython
    3.11).  A [str] (and a [bytes]) is a [string] of 8-bit characters, read
    as the code points U+0000..U+00FF.  A [float] is a binary64 number: a
    finite value, an infinity or a NaN, and every operation on floats
    rounds to the nearest float, ties to even.  An [int] is a [Z].  An
    exception is a class together with what [str(e)] yields.  The clock of
    the event loop and the durations of external calls are rationals.
    Coroutines run to completion one after the other; awaiting an external
    service or [asyncio.sleep] is the only point where a pending
    [asyncio.wait_for] deadline cancels the running coroutine.  Calls of
    the logger change nothing in the control flow and are left out. *)

From Stdlib Require Import String Ascii List ZArith QArith Qminmax Lia Bool.
From Stdlib Require Import Qpower Qround Qabs Lqa DecimalString.
From stdpp Require Import gmap strings.
Import ListNotations.

Local Open Scope string_scope.
Local Open Scope Z_scope.

(* ===================================================================== *)
(** ** Python strings *)
(* ===================================================================== *)

(** [ord(c)] for an 8-bit character. *)
Definition ord (c : ascii) : N := N_of_ascii c.

(** [c.lower()] on U+0000..U+00FF: the letters A..Z and the Latin-1 capitals
    U+00C0..U+00DE (U+00D7, the multiplication sign, apart) move up by 32. *)
Definition chr_lower (c : ascii) : ascii :=
  let n := ord c in
  if ((65 <=? n) && (n <=? 90))%N then ascii_of_N (n + 32)
  else if ((192 <=? n) && (n <=? 222) && negb (n =? 215))%N then ascii_of_N (n + 32)
  else c.

(** [s.lower()]. *)
Fixpoint str_lower (s : string) : string :=
  match s with
  | EmptyString => EmptyString
  | String c s' => String (chr_lower c) (str_lower s')
  end.

(** [needle in hay] for two [str]: [needle] occurs in [hay] as a contiguous
    run of characters. *)
Fixpoint str_in (needle hay : string) : bool :=
  String.prefix needle hay
  || match hay with
     | EmptyString => false
     | String _ hay' => str_in needle hay'
     end.

(** [len(s)] as a Python [int]. *)
Definition len (s : string) : Z := Z.of_nat (String.length s).

(** [s[:n]] for an [int] [n >= 0]. *)
Definition str_take (n : Z) (s : string) : string :=
  String.substring 0 (Z.to_nat n) s.

(** [c * n]: the character repeated. *)
Fixpoint str_repeat (c : ascii) (n : nat) : string :=
  match n with
  | O => EmptyString
  | Datatypes.S n' => String c (str_repeat c n')
  end.

(** [c.isspace()] on U+0000..U+00FF. *)
Definition chr_isspace (c : ascii) : bool :=
  let n := ord c in
  (((9 <=? n) && (n <=? 13)) || ((28 <=? n) && (n <=? 32))
   || (n =? 133) || (n =? 160))%N.

Fixpoint str_lstrip (s : string) : string :=
  match s with
  | EmptyString => EmptyString
  | String c s' => if chr_isspace c then str_lstrip s' else s
  end.

Definition str_rev (s : string) : string :=
  string_of_list_ascii (rev (list_ascii_of_string s)).

(** [s.strip()]. *)
Definition str_strip (s : string) : string :=
  str_rev (str_lstrip (str_rev (str_lstrip s))).

(** Truthiness of a [str]: [bool(s)]. *)
Definition str_truthy (s : string) : bool :=
  match s with EmptyString => false | _ => true end.

(** [not s or not s.strip()]. *)
Definition py_blank (s : string) : bool :=
  negb (str_truthy s) || negb (str_truthy (str_strip s)).

(** [str(n)] for an [int]. *)
Definition str_of_int (n : Z) : string := NilZero.string_of_int (Z.to_int n).

(* ===================================================================== *)
(** ** Python exceptions *)
(* ===================================================================== *)

(** The exception classes the code names or can meet, with their base
    class.  [FfmpegError] is [ffmpeg.Error], [APIError] the OpenAI client's
    error class. *)
Inductive pyclass :=
  | Exception
  | ArithmeticError
  | OverflowError
  | ZeroDivisionError
  | OSError
  | ConnectionError
  | BrokenPipeError
  | ConnectionAbortedError
  | ConnectionRefusedError
  | ConnectionResetError
  | TimeoutError
  | FileNotFoundError
  | ValueError
  | TypeError
  | RuntimeError
  | FfmpegError
  | APIError
  | HTTPException.

(** [asyncio.TimeoutError]: from Python 3.11 on, the interpreter modelled
    here, it is another name of the builtin [TimeoutError], so that
    [except asyncio.TimeoutError] catches the builtin class and what
    [asyncio.wait_for] raises is an [OSError]. *)
Definition AsyncioTimeoutError : pyclass := TimeoutError.

Definition pyclass_eqb (a b : pyclass) : bool :=
  match a, b with
  | Exception, Exception | ArithmeticError, ArithmeticError
  | OverflowError, OverflowError | ZeroDivisionError, ZeroDivisionError
  | OSError, OSError
  | ConnectionError, ConnectionError | BrokenPipeError, BrokenPipeError
  | ConnectionAbortedError, ConnectionAbortedError
  | ConnectionRefusedError, ConnectionRefusedError
  | ConnectionResetError, ConnectionResetError
  | TimeoutError, TimeoutError | FileNotFoundError, FileNotFoundError
  | ValueError, ValueError
  | TypeError, TypeError | RuntimeError, RuntimeError
  | FfmpegError, FfmpegError | APIError, APIError
  | HTTPException, HTTPException => true
  | _, _ => false
  end.

(** The direct base class ([None] for [Exception], the root of the model). *)
Definition base_class (c : pyclass) : option pyclass :=
  match c with
  | Exception => None
  | ArithmeticError => Some Exception
  | OverflowError => Some ArithmeticError
  | ZeroDivisionError => Some ArithmeticError
  | OSError => Some Exception
  | ConnectionError => Some OSError
  | BrokenPipeError => Some ConnectionError
  | ConnectionAbortedError => Some ConnectionError
  | ConnectionRefusedError => Some ConnectionError
  | ConnectionResetError => Some ConnectionError
  | TimeoutError => Some OSError
  | FileNotFoundError => Some OSError
  | ValueError => Some Exception
  | TypeError => Some Exception
  | RuntimeError => Some Exception
  | FfmpegError => Some Exception
  | APIError => Some Exception
  | HTTPException => Some Exception
  end.

(** [issubclass(c, d)]; the hierarchy above is four classes deep. *)
Fixpoint issubclass_fuel (fuel : nat) (c d : pyclass) : bool :=
  pyclass_eqb c d
  || match fuel with
     | O => false
     | S fuel' =>
         match base_class c with
         | Some b => issubclass_fuel fuel' b d
         | None => false
         end
     end.

Definition issubclass (c d : pyclass) : bool := issubclass_fuel 4 c d.

(** An exception object: [Exc cls msg] is [cls(msg)], whose [str] is [msg];
    [HTTPExc status detail] is FastAPI's
    [HTTPException(status_code=status, detail=detail)]. *)
Inductive exn :=
  | Exc (cls : pyclass) (msg : string)
  | HTTPExc (status_code : Z) (detail : string).

Definition class_of (e : exn) : pyclass :=
  match e with
  | Exc cls _ => cls
  | HTTPExc _ _ => HTTPException
  end.

(** [str(e)]. *)
Definition py_str (e : exn) : string :=
  match e with
  | Exc _ msg => msg
  | HTTPExc status detail => str_of_int status ++ ": " ++ detail
  end.

(** [isinstance(e, (c1, ..., cn))]. *)
Definition isinstance (e : exn) (classes : list pyclass) : bool :=
  existsb (issubclass (class_of e)) classes.

(* ===================================================================== *)
(** ** retry_utils.py: the retry predicate *)
(* ===================================================================== *)

Definition retryable_conditions : list string :=
  [ "timeout"; "connection"; "network"; "503"; "502"; "504"; "429";
    "rate limit"; "too many requests" ].

Definition non_retryable_conditions : list string :=
  [ "401"; "403"; "404"; "invalid api key"; "authentication"; "authorization" ].

(** [for condition in conditions: if condition in error_msg: return ...]:
    whether the loop reaches its [return]. *)
Definition any_condition_in (conditions : list string) (error_msg : string) : bool :=
  existsb (fun condition => str_in condition error_msg) conditions.

Definition should_retry (exception : exn) : bool :=
  if isinstance exception [ConnectionError; TimeoutError; AsyncioTimeoutError]
  then true
  else
    let error_msg := str_lower (py_str exception) in
    if any_condition_in retryable_conditions error_msg then true
    else if any_condition_in non_retryable_conditions error_msg then false
    else if str_in "500" error_msg || str_in "5xx" error_msg then true
    else false.

(** The classification as the specification words it, rule by rule in the
    order it lists them (used only to compare with [should_retry]). *)
Definition spec_retryable_tokens : list string :=
  [ "429"; "502"; "503"; "504"; "rate limit"; "timeout"; "connection"; "network" ].

Definition spec_non_retryable_tokens : list string :=
  [ "401"; "403"; "404"; "invalid api key"; "authentication"; "authorization" ].

Definition spec_should_retry (exception : exn) : bool :=
  if isinstance exception [ConnectionError; TimeoutError; AsyncioTimeoutError]
  then true
  else
    let error_msg := str_lower (py_str exception) in
    if any_condition_in spec_retryable_tokens error_msg then true
    else if any_condition_in spec_non_retryable_tokens error_msg then false
    else if str_in "500" error_msg then true
    else false.


(* ===================================================================== *)
(** ** Python floats *)
(* ===================================================================== *)

(** A [float]: a finite binary64 number, given by its value, or an
    infinity, or a NaN.  The two zeros are one value here (the code below
    never divides and never prints a delay). *)
Inductive float :=
  | Num (value : Q)
  | Inf (negative : bool)
  | NaN.

Coercion Num : Q >-> float.
Bind Scope Q_scope with float.

(** The nearest integer, ties to the even one. *)
Definition round_half_even (x : Q) : Z :=
  let f := Qfloor x in
  match (x - inject_Z f ?= 1 # 2)%Q with
  | Lt => f
  | Eq => if Z.even f then f else f + 1
  | Gt => f + 1
  end.

(** [floor(log2(q))] for [0 < q]. *)
Definition Qlog2 (q : Q) : Z :=
  let k := Z.log2 (Qnum q) - Z.log2 (Zpos (Qden q)) in
  if Qle_bool (2 ^ k) q then k else k - 1.

(** The exponent of the unit in the last place of the binary64 numbers
    around [q]: 53 bits of precision, and no exponent below -1074. *)
Definition ulp_exponent (q : Q) : Z := Z.max (Qlog2 (Qabs q) - 52) (-1074).

(** The multiple of 2^e nearest to [q], ties to even. *)
Definition on_grid (q : Q) (e : Z) : Q :=
  (inject_Z (round_half_even (q / 2 ^ e)) * 2 ^ e)%Q.

(** [q] rounded to the nearest multiple of its unit in the last place,
    ties to even: the binary64 number nearest to [q], were the exponent
    range unbounded above. *)
Definition round_finite (q : Q) : Q :=
  if Qeq_bool q 0 then 0%Q else Qred (on_grid q (ulp_exponent q)).

(** The float nearest to [q]: an infinity when the rounded value is out of
    range. *)
Definition fround (q : Q) : float :=
  let r := round_finite q in
  if Qle_bool (2 ^ 1024) (Qabs r) then Inf (negb (Qle_bool 0 r)) else Num r.

Definition Qlt_bool (a b : Q) : bool := negb (Qle_bool b a).

(** [x * y]. *)
Definition fmul (x y : float) : float :=
  match x, y with
  | Num a, Num b => fround (a * b)
  | Num a, Inf s | Inf s, Num a =>
      if Qeq_bool a 0 then NaN else Inf (xorb s (Qlt_bool a 0))
  | Inf s, Inf t => Inf (xorb s t)
  | _, _ => NaN
  end.

(** [x + y]. *)
Definition fadd (x y : float) : float :=
  match x, y with
  | Num a, Num b => fround (a + b)
  | Num _, Inf s | Inf s, Num _ => Inf s
  | Inf s, Inf t => if Bool.eqb s t then Inf s else NaN
  | _, _ => NaN
  end.

(** [x < y] and [x <= y]. *)
Definition flt (x y : float) : bool :=
  match x, y with
  | Num a, Num b => Qlt_bool a b
  | Num _, Inf s => negb s
  | Inf s, Num _ => s
  | Inf s, Inf t => s && negb t
  | _, _ => false
  end.

Definition fle (x y : float) : bool :=
  match x, y with
  | Num a, Num b => Qle_bool a b
  | Num _, Inf s => negb s
  | Inf s, Num _ => s
  | Inf s, Inf t => s || negb t
  | _, _ => false
  end.

(** [float(n)] for an [int]: the nearest float, or an OverflowError. *)
Definition float_of_int (n : Z) : exn + Q :=
  match fround (inject_Z n) with
  | Num q => inr q
  | _ => inl (Exc OverflowError "int too large to convert to float")
  end.

(** [v ** w] for a float [v] and an int [w]: CPython's [float_pow] on [v]
    and [float(w)].  It settles the special cases itself and calls the C
    library's [pow] on a positive base other than 1 and a non-zero
    exponent; [pow] is taken correctly rounded, and a result out of range
    is an OverflowError. *)
Definition float_pow (v : float) (w : Z) : exn + float :=
  match float_of_int w with
  | inl e => inl e
  | inr iw =>
      if Qeq_bool iw 0 then inr (Num 1)
      else
        match v with
        | NaN => inr NaN
        | Inf negative =>
            if Qlt_bool 0 iw then inr (Inf (negative && Z.odd (Qfloor iw)))
            else inr (Num 0)
        | Num iv =>
            if Qeq_bool iv 0 then
              if Qlt_bool iw 0
              then inl (Exc ZeroDivisionError
                          "0.0 cannot be raised to a negative power")
              else inr (Num 0)
            else
              let negate_result := Qlt_bool iv 0 && Z.odd (Qfloor iw) in
              let iv := Qabs iv in
              if Qeq_bool iv 1
              then inr (Num (if negate_result then - (1) else 1))
              else
                match fround (iv ^ Qfloor iw) with
                | Num ix => inr (Num (if negate_result then - ix else ix))
                | _ => inl (Exc OverflowError
                              "(34, 'Numerical result out of range')")
                end
        end
  end.


(* ===================================================================== *)
(** ** retry_utils.py: RetryConfig *)
(* ===================================================================== *)

(** The three numbers are floats, as [__init__] annotates them. *)
Record RetryConfig := mkRetryConfig {
  max_attempts : Z;
  base_delay : float;
  max_delay : float;
  exponential_base : float;
  jitter : bool
}.

(** [RetryConfig()] with the defaults of [__init__]. *)
Definition RetryConfig_default : RetryConfig :=
  mkRetryConfig 3 1 10 2 true.

Definition RETRY_CONFIG_STT : RetryConfig := mkRetryConfig 3 1 5 2 true.
Definition RETRY_CONFIG_AI : RetryConfig := mkRetryConfig 3 2 10 2 true.
Definition RETRY_CONFIG_TTS : RetryConfig := mkRetryConfig 3 1 5 2 true.

(** The builtin [min(a, b)] on two floats: [b] when [b < a], else [a]. *)
Definition py_min (a b : float) : float := if flt b a then b else a.

(** [range(n)]. *)
Definition py_range (n : Z) : list Z := map Z.of_nat (seq 0 (Z.to_nat n)).

(* ===================================================================== *)
(** ** The runtime: world, outcomes, coroutines *)
(* ===================================================================== *)

(** What a run leaves behind for an observer: the external services that
    were called (with the argument they were given) and the
    [asyncio.sleep]s that were awaited, in order. *)
Inductive event :=
  | Call (callee : string) (argument : string)
  | Sleep (seconds : float).

(** How a coroutine ends: it returns, it raises an [Exception], or it is
    cancelled ([asyncio.CancelledError], which is no [Exception]: an
    [except Exception] clause lets it through, a [finally] clause runs). *)
Inductive outcome (X : Type) :=
  | Return (v : X)
  | Raise (e : exn)
  | Cancelled.
Arguments Return {X} v.
Arguments Raise {X} e.
Arguments Cancelled {X}.

Inductive ServiceType := STT | AI | TTS.

Record FallbackResult (R : Type) := mkFallbackResult {
  success : bool;
  result : option R;
  provider_used : option string;
  fallback_level : Z;
  error : option exn
}.
Arguments mkFallbackResult {R}.
Arguments success {R}.
Arguments result {R}.
Arguments provider_used {R}.
Arguments fallback_level {R}.
Arguments error {R}.

(** What the ffmpeg child process did: it wrote the output file, it failed
    before creating it, or it failed leaving a partial output file. *)
Inductive ffmpeg_result :=
  | Converted (output : string)
  | FailedNoOutput (e : exn)
  | FailedPartialOutput (partial : string) (e : exn).

(** How decoding the conversation header ends:
    [json.loads(base64.b64decode(c).decode('utf-8'))] raises one of the
    errors the handler names ([Undecodable]), raises another exception, or
    yields a value. *)
Inductive decoded (json : Type) :=
  | Undecodable
  | DecodeRaises (e : exn)
  | Parsed (v : json).
Arguments Undecodable {json}.
Arguments DecodeRaises {json} e.
Arguments Parsed {json} v.

Record request := mkRequest {
  content_type : option string;    (* audio.content_type *)
  audio_bytes : string;            (* what await audio.read() yields *)
  conversation : option string     (* the conversation header *)
}.

(** The [StreamingResponse] that is returned: its body iterator and its
    headers (the two timings as numbers of seconds). *)
Record response := mkResponse {
  body_iterator : list string;
  media_type : string;
  X_STT_Time : Q;
  X_AI_Time : Q;
  X_Transcript : string;
  X_AI_Response : string;
  X_Conversation : string
}.

Section Runtime.

(** The state of everything outside the process (providers, network, the
    random generators): it is threaded through the calls and decides, call
    by call, what each external service answers and how long it takes. *)
Variable S : Type.

Record world := mkWorld {
  ext : S;                      (* the outside *)
  now : Q;                      (* the event loop's clock, in seconds *)
  deadline : option Q;          (* the deadline of the enclosing wait_for *)
  trace : list event;           (* what was called and slept, oldest first *)
  files : gmap string string    (* the files under /tmp: path to content *)
}.

Definition set_ext (s : S) (w : world) : world :=
  mkWorld s (now w) (deadline w) (trace w) (files w).
Definition set_now (t : Q) (w : world) : world :=
  mkWorld (ext w) t (deadline w) (trace w) (files w).
Definition set_deadline (d : option Q) (w : world) : world :=
  mkWorld (ext w) (now w) d (trace w) (files w).
Definition set_files (fs : gmap string string) (w : world) : world :=
  mkWorld (ext w) (now w) (deadline w) (trace w) fs.
Definition log_event (ev : event) (w : world) : world :=
  mkWorld (ext w) (now w) (deadline w) (trace w ++ [ev])%list (files w).

(** Time passes: [seconds] on the clock (a negative amount counts as none). *)
Definition advance (seconds : Q) (w : world) : world :=
  set_now (now w + Qmax 0 seconds)%Q w.

(** A coroutine (or a plain function with effects) producing an [X]. *)
Definition M (X : Type) : Type := world -> outcome X * world.

Definition ret {X} (v : X) : M X := fun w => (Return v, w).
Definition raise {X} (e : exn) : M X := fun w => (Raise e, w).

Definition bind {X Y} (m : M X) (k : X -> M Y) : M Y :=
  fun w =>
    match m w with
    | (Return v, w') => k v w'
    | (Raise e, w') => (Raise e, w')
    | (Cancelled, w') => (Cancelled, w')
    end.

(** [try: body / except Exception as e: handler(e)]. *)
Definition try_except {X} (body : M X) (handler : exn -> M X) : M X :=
  fun w =>
    match body w with
    | (Raise e, w') => handler e w'
    | r => r
    end.

(** [try: body / finally: cleanup]: the cleanup runs on every exit; when it
    raises, its exception is the one that propagates. *)
Definition try_finally {X} (body : M X) (cleanup : M unit) : M X :=
  fun w =>
    let '(o, w') := body w in
    match cleanup w' with
    | (Return _, w'') => (o, w'')
    | (Raise e, w'') => (Raise e, w'')
    | (Cancelled, w'') => (Cancelled, w'')
    end.

(** Whether an await that needs [seconds] is cut short by the deadline. *)
Definition expires (seconds : Q) (w : world) : bool :=
  match deadline w with
  | Some t => negb (Qle_bool (now w + Qmax 0 seconds) t)
  | None => false
  end.

(** The coroutine is cancelled when the deadline strikes. *)
Definition strike (w : world) : world :=
  match deadline w with
  | Some t => set_now (Qmax (now w) t) w
  | None => w
  end.

(** [await asyncio.sleep(delay)].  A delay that is not positive yields to
    the event loop once.  With an infinite or NaN delay the timer never
    fires: the coroutine ends only by being cancelled, which the deadline
    does when there is one.  (With none it never ends; [Cancelled] stands
    for that too: nothing that follows the sleep is run.) *)
Definition asyncio_sleep (delay : float) : M unit :=
  fun w =>
    let w1 := log_event (Sleep delay) w in
    match delay with
    | Num seconds =>
        if expires seconds w1 then (Cancelled, strike w1)
        else (Return tt, advance seconds w1)
    | Inf true =>
        if expires 0 w1 then (Cancelled, strike w1) else (Return tt, w1)
    | Inf false | NaN => (Cancelled, strike w1)
    end.

(** A value or an exception, as a computation. *)
Definition raise_or_ret {X} (r : exn + X) : M X :=
  match r with
  | inl e => raise e
  | inr v => ret v
  end.

(** An external service: from its argument and the state of the outside,
    how long the call takes, what it answers, and the outside afterwards. *)
Definition service (A R : Type) : Type := A -> S -> Q * (exn + R) * S.

(** [await service(argument)]: the call is recorded, then it completes
    unless the deadline strikes first. *)
Definition external {A R} (name : string) (repr : A -> string)
    (svc : service A R) (a : A) : M R :=
  fun w =>
    let w1 := log_event (Call name (repr a)) w in
    let '(seconds, answer, s') := svc a (ext w1) in
    if expires seconds w1 then (Cancelled, strike w1)
    else
      (match answer with inl e => Raise e | inr v => Return v end,
       advance seconds (set_ext s' w1)).

(** [await asyncio.wait_for(aw, timeout)]: [aw] runs under the deadline
    [now + timeout] (or an earlier one already pending); cancelled by its
    own deadline it ends in [asyncio.TimeoutError]. *)
Definition wait_for {X} (aw : M X) (timeout : Q) : M X :=
  fun w =>
    let own := (now w + timeout)%Q in
    let outer_first :=
      match deadline w with
      | Some t => Qle_bool t own
      | None => false
      end in
    let effective := if outer_first then deadline w else Some own in
    let '(o, w') := aw (set_deadline effective w) in
    let w'' := set_deadline (deadline w) w' in
    match o with
    | Cancelled =>
        if outer_first then (Cancelled, w'')
        else (Raise (Exc AsyncioTimeoutError ""), w'')
    | _ => (o, w'')
    end.

End Runtime.

Arguments mkWorld {S}.
Arguments ext {S}.
Arguments now {S}.
Arguments deadline {S}.
Arguments trace {S}.
Arguments files {S}.
Arguments set_ext {S}.
Arguments set_now {S}.
Arguments set_deadline {S}.
Arguments set_files {S}.
Arguments log_event {S}.
Arguments advance {S}.
Arguments ret {S X}.
Arguments raise {S X}.
Arguments bind {S X Y}.
Arguments try_except {S X}.
Arguments try_finally {S X}.
Arguments expires {S}.
Arguments strike {S}.
Arguments asyncio_sleep {S}.
Arguments raise_or_ret {S X}.
Arguments external {S A R}.
Arguments wait_for {S X}.

Notation "x <- m ;; k" := (bind m (fun x => k))
  (at level 100, m at next level, right associativity).
Notation "m ;;; k" := (bind m (fun _ => k))
  (at level 100, right associativity).

(* ===================================================================== *)
(** ** A concrete outside, for the examples *)
(* ===================================================================== *)

(** The outside is a counter; the services below count their calls on it
    and take one second each. *)
Definition demo_world : world nat := mkWorld 0%nat 0%Q None [] ∅.

(** Every draw of the generator is one half. *)
Definition demo_random (s : nat) : Z * nat := (2 ^ 52, s).

Definition demo_uuid4 (s : nat) : string * nat :=
  (str_of_int (Z.of_nat s), Datatypes.S s).

Definition demo_write (path content : string) (s : nat) : option exn := None.

Definition demo_ffmpeg (input : option string) (s : nat) : Q * ffmpeg_result * nat :=
  (1%Q, Converted "pcm", s).

Definition demo_ffmpeg_error : exn :=
  Exc FfmpegError "ffmpeg error (see stderr output for detail)".

Definition demo_ffmpeg_fails (input : option string) (s : nat)
    : Q * ffmpeg_result * nat :=
  (1%Q, FailedNoOutput demo_ffmpeg_error, s).

Definition demo_client (s : nat) : option exn := None.

(** A service that answers every call with the error [e]. *)
Definition always_fails {A R} (e : exn) : service nat A R :=
  fun _ s => (1%Q, inl e, Datatypes.S s).

(** A service that answers every call with the value [v]. *)
Definition always_answers {A R} (v : R) : service nat A R :=
  fun _ s => (1%Q, inr v, Datatypes.S s).

Definition demo_pydantic_error (message : string) : string :=
  "1 validation error for TTSRequest: " ++ message.

(** Codecs of the conversation header for the examples: every header is
    undecodable, and encodings are left as they are. *)
Definition demo_loads (c : string) : decoded unit := Undecodable.
Definition demo_as_list (v : unit) : option (list unit) := None.
Definition demo_turn (role content : string) : unit := tt.
Definition demo_dumps (ms : list unit) : string := "".
Definition demo_b64encode (s : string) : string := s.

Definition demo_request : request := mkRequest (Some "audio/wav") "AUDIO" None.

(** Codecs under which every header decodes to a history of two turns; a
    turn is its role and its content. *)
Definition demo_history : list (string * string) :=
  [("user", "hi"); ("assistant", "hello")].
Definition demo_history_loads (c : string) : decoded (string * string) :=
  Parsed ("list", c).
Definition demo_history_as_list (v : string * string)
    : option (list (string * string)) := Some demo_history.
Definition demo_history_turn (role content : string) : string * string :=
  (role, content).
Definition demo_history_dumps (ms : list (string * string)) : string :=
  String.concat ";" (map (fun m => fst m ++ ":" ++ snd m) ms).

Definition demo_request_with_history : request :=
  mkRequest (Some "audio/wav") "AUDIO" (Some "aGlzdG9yeQ==").

(** A service that fails while the counter is below [n] and answers [v]
    from then on. *)
Definition fails_until {A R} (n : nat) (e : exn) (v : R) : service nat A R :=
  fun _ s => (1%Q, if (s <? n)%nat then inl e else inr v, Datatypes.S s).


(** An ffmpeg that fails after it has written part of its output. *)
Definition demo_ffmpeg_partial (input : option string) (s : nat)
    : Q * ffmpeg_result * nat :=
  (1%Q, FailedPartialOutput "pc" demo_ffmpeg_error, s).

(* ===================================================================== *)
(** ** The code *)
(* ===================================================================== *)

Section Code.

Variable S : Type.

(** [random.random()]: the generator is part of the outside; it yields 53
    random bits [k], and the draw is the float k / 2^53, in [0, 1). *)
Variable random_oracle : S -> Z * S.

Definition random_random : M S float :=
  fun w =>
    let '(k, s') := random_oracle (ext w) in
    (Return (Num (Qred (k mod 2 ^ 53 # 2 ^ 53))), set_ext s' w).

(* --------------------------------------------------------------------- *)
(** *** retry_utils.py *)

(** [RetryConfig.calculate_delay(self, attempt)]. *)
Definition calculate_delay (self : RetryConfig) (attempt : Z) : M S float :=
  power <- raise_or_ret (float_pow (exponential_base self) attempt) ;;
  let delay := fmul (base_delay self) power in
  let delay := py_min delay (max_delay self) in
  if jitter self then
    r <- random_random ;;
    let jitter_amount := fmul (fmul delay (1 # 4)) r in
    ret (fadd delay jitter_amount)
  else ret delay.

(** The body of [for attempt in range(config.max_attempts)] in
    [retry_async], followed by the [raise last_exception] after the loop
    ([raise None] is a [TypeError]). *)
Fixpoint retry_loop {A R} (func : A -> M S R) (args : A) (config : RetryConfig)
    (attempts : list Z) (last_exception : option exn) : M S R :=
  match attempts with
  | [] =>
      match last_exception with
      | Some e => raise e
      | None => raise (Exc TypeError "exceptions must derive from BaseException")
      end
  | attempt :: rest =>
      try_except (func args)
        (fun e =>
           let is_last_attempt := (attempt =? max_attempts config - 1) in
           if negb (should_retry e) then raise e
           else if is_last_attempt then raise e
           else
             delay <- calculate_delay config attempt ;;
             asyncio_sleep delay ;;;
             retry_loop func args config rest (Some e))
  end.

Definition retry_async {A R} (func : A -> M S R) (args : A)
    (config : option RetryConfig) (operation_name : string) : M S R :=
  let config := match config with None => RetryConfig_default | Some c => c end in
  retry_loop func args config (py_range (max_attempts config)) None.

(* --------------------------------------------------------------------- *)
(** *** fallback.py *)

(** The [for level, (fallback_func, fallback_name) in enumerate(..., start=1)]
    loop of [execute_fallback_chain]: [Some r] when it leaves the function
    through its [return], [None] when it runs to its end. *)
Fixpoint fallback_loop {A R} (fallback_funcs : list ((A -> M S R) * string))
    (level : Z) (args : A) : M S (option (FallbackResult R)) :=
  match fallback_funcs with
  | [] => ret None
  | (fallback_func, fallback_name) :: rest =>
      try_except
        (result <- fallback_func args ;;
         ret (Some (mkFallbackResult true (Some result) (Some fallback_name) level None)))
        (fun fallback_error => fallback_loop rest (level + 1) args)
  end.

Definition execute_fallback_chain {A R} (service_type : ServiceType)
    (primary_func : A -> M S R) (primary_name : string) (args : A)
    (fallback_funcs : option (list ((A -> M S R) * string)))
    : M S (FallbackResult R) :=
  try_except
    (result <- primary_func args ;;
     ret (mkFallbackResult true (Some result) (Some primary_name) 0 None))
    (fun e =>
       won <- match fallback_funcs with
              | Some (c :: cs) => fallback_loop (c :: cs) 1 args
              | _ => ret None
              end ;;
       match won with
       | Some r => ret r
       | None => ret (mkFallbackResult false None None (-1) (Some e))
       end).

Definition stt_text_only_mode {A} (args : A) : M S string :=
  ret "[Speech recognition unavailable - please type your message]".

Definition STT_FALLBACK_CHAIN {A} : list ((A -> M S string) * string) :=
  [ (stt_text_only_mode, "Text-only mode") ].

(* --------------------------------------------------------------------- *)
(** *** stt.py *)

(** The outside as [stt.py] meets it: [uuid.uuid4()], writing a file under
    /tmp ([None]: written), the ffmpeg child process (given the content of
    its input file, if there is one; it blocks the event loop for the time
    it takes), the construction of the OpenAI client ([None]: built), and
    the transcription endpoint. *)
Variable uuid4_oracle : S -> string * S.
Variable write_oracle : string -> string -> S -> option exn.
Variable ffmpeg_oracle : option string -> S -> Q * ffmpeg_result * S.
Variable client_oracle : S -> option exn.
Variable whisper : service S string string.

Definition uuid4 : M S string :=
  fun w => let '(u, s') := uuid4_oracle (ext w) in (Return u, set_ext s' w).

Definition no_such_file (path : string) : exn :=
  Exc FileNotFoundError ("[Errno 2] No such file or directory: '" ++ path ++ "'").

(** [with open(path, "wb") as f: f.write(content)]. *)
Definition write_file (path content : string) : M S unit :=
  fun w =>
    match write_oracle path content (ext w) with
    | Some e => (Raise e, w)
    | None => (Return tt, set_files (<[path := content]> (files w)) w)
    end.

(** [open(path, "rb")], read in full. *)
Definition open_rb (path : string) : M S string :=
  fun w =>
    match files w !! path with
    | Some content => (Return content, w)
    | None => (Raise (no_such_file path), w)
    end.

(** [os.remove(path)]. *)
Definition os_remove (path : string) : M S unit :=
  fun w =>
    match files w !! path with
    | Some _ => (Return tt, set_files (delete path (files w)) w)
    | None => (Raise (no_such_file path), w)
    end.

(** [ffmpeg.input(inp).output(out, ...).run()]. *)
Definition ffmpeg_run (inp out : string) : M S unit :=
  fun w =>
    let '(seconds, r, s') := ffmpeg_oracle (files w !! inp) (ext w) in
    let w1 := advance seconds (set_ext s' w) in
    match r with
    | Converted output =>
        (Return tt, set_files (<[out := output]> (files w1)) w1)
    | FailedNoOutput e => (Raise e, w1)
    | FailedPartialOutput partial e =>
        (Raise e, set_files (<[out := partial]> (files w1)) w1)
    end.

(** [client = AsyncOpenAI(api_key=OPENAI_API_KEY)]. *)
Definition AsyncOpenAI : M S unit :=
  fun w =>
    match client_oracle (ext w) with
    | Some e => (Raise e, w)
    | None => (Return tt, w)
    end.

Definition _transcribe_internal (converted_filepath : string) : M S string :=
  AsyncOpenAI ;;;
  audio_file <- open_rb converted_filepath ;;
  external "client.audio.transcriptions.create" id whisper audio_file.

(** The nested [_transcribe_with_retry(filepath)] of [transcribe]. *)
Definition _transcribe_with_retry (filepath : string) : M S string :=
  retry_async _transcribe_internal filepath (Some RETRY_CONFIG_STT) "STT".

(** [transcribe(audio)], with the list its global name [STT_FALLBACK_CHAIN]
    is bound to when the call runs as the argument [chain]; [audio] is the
    bytes [await audio.read()] yields.  The result is [None] for Python's
    [None].  The [finally] clause removes the converted file when
    ['converted_filepath' in locals()], that is, once the line that binds
    the name has run. *)
Definition transcribe_with (chain : list ((string -> M S string) * string))
    (audio : string) : M S (option string) :=
  let audio_content := audio in
  u <- uuid4 ;;
  let temp_filepath := "/tmp/" ++ u ++ ".wav" in
  fun w =>
    match write_file temp_filepath audio_content w with
    | (Return _, w1) =>
        (u' <- uuid4 ;;
         let converted_filepath := "/tmp/converted-" ++ u' ++ ".wav" in
         try_finally
           (ffmpeg_run temp_filepath converted_filepath ;;;
            fallback_result <-
              execute_fallback_chain STT _transcribe_with_retry "OpenAI Whisper"
                converted_filepath (Some chain) ;;
            if negb (success fallback_result)
            then ret (Some "[Speech recognition unavailable]")
            else
              let transcription := result fallback_result in
              ret transcription)
           (os_remove temp_filepath ;;;
            os_remove converted_filepath)) w1
    | (Raise e, w1) => try_finally (raise e) (os_remove temp_filepath) w1
    | (Cancelled, w1) => try_finally (fun w' => (Cancelled, w')) (os_remove temp_filepath) w1
    end.

(** [transcribe] as the module is shipped: [STT_FALLBACK_CHAIN] is the list
    [fallback.py] defines. *)
Definition transcribe (audio : string) : M S (option string) :=
  transcribe_with STT_FALLBACK_CHAIN audio.

(* --------------------------------------------------------------------- *)
(** *** routes/tts.py: the request model *)

(** How pydantic words the [ValidationError] (a [ValueError]) it raises
    for a validator's message. *)
Variable pydantic_error : string -> string.

(** [TTSRequest(text=text)]: the [validate_text] field validator runs;
    the value is the request's [text]. *)
Definition TTSRequest (text : string) : M S string :=
  let v := text in
  if py_blank v
  then raise (Exc ValueError (pydantic_error "Text cannot be empty"))
  else if len v >? 4096
  then raise (Exc ValueError
                (pydantic_error "Text exceeds maximum length of 4096 characters"))
  else ret (str_strip v).

(* --------------------------------------------------------------------- *)
(** *** routes/inference.py *)

Definition MAX_AUDIO_SIZE : Z := 10 * 1024 * 1024.
Definition MAX_CONVERSATION_LENGTH : nat := 10.
Definition STT_TIMEOUT : Q := 30.
Definition AI_TIMEOUT : Q := 60.
Definition TTS_TIMEOUT : Q := 120.

(** JSON values and the codecs of the conversation header: decoding;
    [isinstance(v, list)]; the dict of one turn;
    [base64.b64encode(json.dumps(ms).encode('utf-8')).decode('utf-8')];
    [base64.b64encode(s.encode('utf-8')).decode(...)]. *)
Variable json : Type.

Variable b64_json_loads : string -> decoded json.
Variable json_as_list : json -> option (list json).
Variable json_turn : string -> string -> json.
Variable b64_json_dumps : list json -> string.
Variable b64encode_utf8 : string -> string.

(** [time.time()]. *)
Definition time_time : M S Q := fun w => (Return (now w), w).

(** [ms[-n:]]. *)
Definition last_n {X} (n : nat) (ms : list X) : list X :=
  skipn (length ms - n) ms.

(** The two [except] clauses that follow each stage:
    [except asyncio.TimeoutError] and [except Exception as e]. *)
Definition stage_handler {X} (timed_out failed : string) (e : exn) : M S X :=
  if isinstance e [AsyncioTimeoutError]
  then raise (HTTPExc 504 timed_out)
  else raise (HTTPExc 500 (failed ++ str_take 100 (py_str e))).

(** The block of [unified_inference] that parses the conversation history
    (from [messages = []] to the end of its inner [try]); the value is
    [messages]. *)
Definition parse_conversation (conversation : option string) : M S (list json) :=
  match conversation with
  | Some c =>
      if str_truthy c then
        match b64_json_loads c with
        | Undecodable => ret []
        | DecodeRaises e => raise e
        | Parsed v =>
            let messages :=
              match json_as_list v with
              | Some ms => ms
              | None => []
              end in
            ret (if (MAX_CONVERSATION_LENGTH <? length messages)%nat
                 then last_n MAX_CONVERSATION_LENGTH messages
                 else messages)
        end
      else ret []
  | None => ret []
  end.

(** [unified_inference(audio, conversation, background_tasks)], with the
    three stage functions it imports when it runs as arguments. *)
Definition unified_inference
    (transcribe : string -> M S (option string))
    (get_completion : string -> option string -> M S string)
    (text_to_speech : string -> M S (list string))
    (req : request) : M S response :=
  try_except
    ((* STEP 0: validation *)
     if match content_type req with
        | None => true
        | Some ct => negb (str_truthy ct) || negb (str_in "audio" ct)
        end
     then raise (HTTPExc 400 "Invalid audio file type")
     else
     let audio_data := audio_bytes req in
     if len audio_data =? 0 then raise (HTTPExc 400 "Empty audio file")
     else if len audio_data >? MAX_AUDIO_SIZE
     then raise (HTTPExc 413 ("Audio file too large (max "
                               ++ str_of_int MAX_AUDIO_SIZE ++ " bytes)"))
     else
     (* STEP 1: speech to text *)
     stt_start <- time_time ;;
     stt_out <-
       try_except
         (let audio_file := audio_data in
          transcript <- wait_for (transcribe audio_file) STT_TIMEOUT ;;
          t <- time_time ;;
          let stt_time := (t - stt_start)%Q in
          (* the log line slices transcript[:100] *)
          match transcript with
          | Some transcript => ret (transcript, stt_time)
          | None => raise (Exc TypeError "'NoneType' object is not subscriptable")
          end)
         (stage_handler "Speech recognition timed out" "Speech recognition failed: ") ;;
     let '(transcript, stt_time) := stt_out in
     if py_blank transcript
     then raise (HTTPExc 400 "Could not transcribe audio - please speak clearly")
     else
     let transcript :=
       if len transcript >? 1000 then str_take 1000 transcript else transcript in
     (* STEP 2: AI completion *)
     ai_start <- time_time ;;
     ai_out <-
       try_except
         (messages <- parse_conversation (conversation req) ;;
          let messages_b64 :=
            match messages with
            | [] => None
            | _ => Some (b64_json_dumps messages)
            end in
          ai_response <- wait_for (get_completion transcript messages_b64) AI_TIMEOUT ;;
          t <- time_time ;;
          ret (messages, ai_response, (t - ai_start)%Q))
         (stage_handler "AI response timed out" "AI processing failed: ") ;;
     let '(messages, ai_response, ai_time) := ai_out in
     if py_blank ai_response
     then raise (HTTPExc 500 "AI returned empty response")
     else
     let ai_response :=
       if len ai_response >? 5000 then str_take 5000 ai_response ++ "..."
       else ai_response in
     (* STEP 3: text to speech *)
     streaming_response <-
       try_except
         (tts_request <- TTSRequest ai_response ;;
          wait_for (text_to_speech tts_request) TTS_TIMEOUT)
         (stage_handler "Text-to-speech timed out" "Text-to-speech failed: ") ;;
     (* STEP 4: build the response *)
     let messages :=
       (messages ++ [json_turn "user" transcript;
                     json_turn "assistant" ai_response])%list in
     let messages :=
       if (MAX_CONVERSATION_LENGTH <? length messages)%nat
       then last_n MAX_CONVERSATION_LENGTH messages else messages in
     let last_turn :=
       if (2 <=? length messages)%nat then last_n 2 messages else messages in
     let conversation_header := b64_json_dumps last_turn in
     let ai_response_b64 := b64encode_utf8 ai_response in
     let transcript_b64 := b64encode_utf8 (str_take 500 transcript) in
     ret (mkResponse streaming_response "audio/mpeg" stt_time ai_time
            transcript_b64 (str_take 2000 ai_response_b64) conversation_header))
    (fun e =>
       if isinstance e [HTTPException] then raise e
       else raise (HTTPExc 500 "Internal server error")).

(* --------------------------------------------------------------------- *)
(** *** retry_utils.py: retry_sync *)

(** [time.sleep(secs)]: the thread blocks, so no deadline of the event
    loop can cut the sleep short.  A NaN is refused; the argument is then
    multiplied by 1e9, and the product must lie between -2^63 and 2^63 to
    become a number of nanoseconds, which must not be negative.  (A product
    of 2^63 itself passes that test and becomes the most negative 64-bit
    integer.  A sleep of some 292 years, just below, is refused by the
    operating system when it would end after the end of its clock; the
    model lets that sleep go on.) *)
Definition time_sleep (secs : float) : M S unit :=
  fun w =>
    match secs with
    | NaN => (Raise (Exc ValueError "Invalid value NaN (not a number)"), w)
    | Inf _ =>
        (Raise (Exc OverflowError
                  "timestamp too large to convert to C _PyTime_t"), w)
    | Num seconds =>
        match fmul secs 1000000000 with
        | Num d =>
            if Qlt_bool (2 ^ 63) (Qabs d)
            then (Raise (Exc OverflowError
                           "timestamp too large to convert to C _PyTime_t"), w)
            else if Qlt_bool seconds 0 || Qeq_bool d (2 ^ 63)
            then (Raise (Exc ValueError "sleep length must be non-negative"), w)
            else (Return tt, advance seconds (log_event (Sleep seconds) w))
        | _ =>
            (Raise (Exc OverflowError
                      "timestamp too large to convert to C _PyTime_t"), w)
        end
    end.

(** The loop of [retry_sync], and the [raise last_exception] after it. *)
Fixpoint retry_loop_sync {A R} (func : A -> M S R) (args : A)
    (config : RetryConfig) (attempts : list Z) (last_exception : option exn)
    : M S R :=
  match attempts with
  | [] =>
      match last_exception with
      | Some e => raise e
      | None => raise (Exc TypeError "exceptions must derive from BaseException")
      end
  | attempt :: rest =>
      try_except (func args)
        (fun e =>
           let is_last_attempt := (attempt =? max_attempts config - 1) in
           if negb (should_retry e) then raise e
           else if is_last_attempt then raise e
           else
             delay <- calculate_delay config attempt ;;
             time_sleep delay ;;;
             retry_loop_sync func args config rest (Some e))
  end.

Definition retry_sync {A R} (func : A -> M S R) (args : A)
    (config : option RetryConfig) (operation_name : string) : M S R :=
  let config := match config with None => RetryConfig_default | Some c => c end in
  retry_loop_sync func args config (py_range (max_attempts config)) None.

(* --------------------------------------------------------------------- *)
(** *** fallback.py: the AI chain, and the chunks of a synthesized reply *)

Definition ai_template_fallback {A} (args : A) : M S string :=
  ret "I apologize, but I'm experiencing technical difficulties. Please try again in a moment.".

Definition AI_FALLBACK_CHAIN {A} : list ((A -> M S string) * string) :=
  [ (ai_template_fallback, "Template Response") ].

(** [range(start, stop, step)] as the list of its values; [None] when
    [step] is 0 (a ValueError). *)
Definition py_range3 (start stop step : Z) : option (list Z) :=
  if step =? 0 then None
  else
    let n := if 0 <? step then (stop - start + step - 1) / step
             else (start - stop - step - 1) / (- step) in
    Some (map (fun k => start + step * Z.of_nat k) (seq 0 (Z.to_nat n))).

(** [s[i:j]] for [0 <= i]. *)
Definition str_slice (i j : Z) (s : string) : string :=
  String.substring (Z.to_nat i) (Z.to_nat (j - i)) s.

(** [EdgeTTSResponse.iter_bytes(chunk_size)] and
    [gTTSResponse.iter_bytes(chunk_size)], run to the end: the chunks
    yielded, or the exception the generator ends in. *)
Definition iter_bytes (data : string) (chunk_size : Z) : exn + list string :=
  match py_range3 0 (len data) chunk_size with
  | None => inl (Exc ValueError "range() arg 3 must not be zero")
  | Some offsets =>
      inr (map (fun i => str_slice i (i + chunk_size) data) offsets)
  end.

(* --------------------------------------------------------------------- *)
(** *** ai.py: the guard of get_completion *)

(** [s.isspace()]. *)
Definition str_isspace (s : string) : bool :=
  str_truthy s && forallb chr_isspace (list_ascii_of_string s).

Definition _is_empty (user_prompt : string) : bool :=
  negb (str_truthy user_prompt) || str_isspace user_prompt.

(** What [get_completion] does once its guard has let the prompt through:
    it assembles the messages and calls the provider. *)
Variable completion_rest : string -> option string -> M S string.

Definition get_completion (user_prompt : string)
    (conversation_thus_far : option string) : M S string :=
  if _is_empty user_prompt then raise (Exc ValueError "empty user prompt received")
  else completion_rest user_prompt conversation_thus_far.

(* --------------------------------------------------------------------- *)
(** *** routes/chat.py: the transcription route *)

(** The dict the route answers with. *)
Record transcription := mkTranscription {
  status : string;
  transcript : string
}.

(** [transcribe_audio(audio)]; [stt_enabled] is
    [get_capabilities().stt_enabled], [content_type] and [audio] are the
    upload's content type and bytes. *)
Definition transcribe_audio (stt_enabled : bool) (content_type : option string)
    (audio : string) : M S transcription :=
  if negb stt_enabled
  then raise (HTTPExc 503 "Speech-to-text is not available. Please configure OPENAI_API_KEY to enable voice features.")
  else
    try_except
      (if match content_type with
          | None => true
          | Some ct => negb (str_truthy ct) || negb (String.prefix "audio/" ct)
          end
       then raise (HTTPExc 400 "Invalid file type. Please upload an audio file.")
       else
         transcript <- transcribe audio ;;
         match transcript with
         | Some transcript =>
             if py_blank transcript
             then raise (HTTPExc 400 "Could not transcribe audio. Please speak clearly and try again.")
             else ret (mkTranscription "success" (str_strip transcript))
         | None =>
             raise (HTTPExc 400 "Could not transcribe audio. Please speak clearly and try again.")
         end)
      (fun e =>
         if isinstance e [HTTPException] then raise e
         else raise (HTTPExc 500 (py_str e))).

(* --------------------------------------------------------------------- *)
(** *** Notions used in the statements *)

(** [tok] occurs in [msg]. *)
Definition occurs_in (tok msg : string) : Prop :=
  exists before after, msg = before ++ tok ++ after.

(** The exception is an instance of [ConnectionError], [TimeoutError] or
    [asyncio.TimeoutError]. *)
Definition network_error (e : exn) : Prop :=
  isinstance e [ConnectionError; TimeoutError; AsyncioTimeoutError] = true.

(** The candidates of [fs], run one after the other on [args] from the
    world [w], each raise; [w'] is the world the last one leaves. *)
Inductive all_fail {A R} (args : A) :
    list ((A -> M S R) * string) -> world S -> world S -> Prop :=
  | all_fail_nil (w : world S) : all_fail args [] w w
  | all_fail_cons (f : A -> M S R) (name : string) (rest : list _)
      (w w1 w2 : world S) (e : exn) :
      f args w = (Raise e, w1) ->
      all_fail args rest w1 w2 ->
      all_fail args ((f, name) :: rest) w w2.

(** [fallback_funcs or []]. *)
Definition candidates {A R} (fallback_funcs : option (list ((A -> M S R) * string)))
    : list ((A -> M S R) * string) :=
  match fallback_funcs with
  | Some fs => fs
  | None => []
  end.

(** The prompt and the history the AI stage is called with. *)
Definition prompt_of (text : string) : string :=
  if len text >? 1000 then str_take 1000 text else text.

Definition history_of (messages : list json) : option string :=
  match messages with
  | [] => None
  | _ => Some (b64_json_dumps messages)
  end.

(** [b''.join(chunks)]. *)
Definition bytes_join (chunks : list string) : string :=
  fold_right String.append "" chunks.

(** The delays of the attempts 0 .. n - 1 are computed (no exception) and
    are finite floats, whatever the generator draws. *)
Definition finite_delays (cfg : RetryConfig) (n : Z) : Prop :=
  forall (attempt : Z) (w : world S),
    0 <= attempt < n ->
    exists d : Q, fst (calculate_delay cfg attempt w) = Return (Num d).


(** The calls and the sleeps of a trace. *)
Fixpoint count_calls (evs : list event) : nat :=
  match evs with
  | [] => 0
  | Call _ _ :: evs' => Datatypes.S (count_calls evs')
  | Sleep _ :: evs' => count_calls evs'
  end.

Fixpoint count_sleeps (evs : list event) : nat :=
  match evs with
  | [] => 0
  | Call _ _ :: evs' => count_sleeps evs'
  | Sleep _ :: evs' => Datatypes.S (count_sleeps evs')
  end.

(** The request passes STEP 0: an audio content type, a payload that is
    neither empty nor over the size limit. *)
Definition accepted (req : request) : Prop :=
  (exists ct, content_type req = Some ct /\ str_in "audio" ct = true)
  /\ 0 < len (audio_bytes req) <= MAX_AUDIO_SIZE.

Ltac wsimpl :=
  cbn [ext now deadline trace files set_ext set_now set_deadline set_files
       log_event advance].

(* ===================================================================== *)
(** ** Properties *)
(* ===================================================================== *)

(* --------------------------------------------------------------------- *)
(** *** Strings *)

Lemma append_nil_l (t : string) : "" ++ t = t.
Proof. reflexivity. Qed.

Lemma append_cons (c : ascii) (s t : string) :
  String c s ++ t = String c (s ++ t).
Proof. reflexivity. Qed.

Lemma prefix_app (n h : string) :
  String.prefix n h = true <-> exists after, h = n ++ after.
Proof.
  revert h. induction n as [|a n IH]; intros h.
  - split; [intros _; exists h; reflexivity | intros _; now destruct h].
  - destruct h as [|b h]; simpl.
    + split; [discriminate | intros [after H]; discriminate].
    + destruct (ascii_dec a b) as [->|Hab].
      * rewrite IH. split; intros [after H]; exists after.
        -- now rewrite H.
        -- rewrite append_cons in H. now inversion H.
      * split; [discriminate|].
        intros [after H]. rewrite append_cons in H. congruence.
Qed.

Lemma str_in_nil (n : string) : str_in n "" = String.prefix n "" || false.
Proof. reflexivity. Qed.

Lemma str_in_cons (n : string) (c : ascii) (h : string) :
  str_in n (String c h) = String.prefix n (String c h) || str_in n h.
Proof. reflexivity. Qed.

Lemma str_in_occurs (n h : string) : str_in n h = true <-> occurs_in n h.
Proof.
  unfold occurs_in. induction h as [|c h IH].
  - rewrite str_in_nil, orb_false_r, prefix_app. split.
    + intros [after H]. exists "", after. exact H.
    + intros [[|b before] [after H]]; [exists after; exact H | discriminate].
  - rewrite str_in_cons, orb_true_iff, prefix_app, IH. split.
    + intros [[after H] | [before [after H]]].
      * exists "", after. exact H.
      * exists (String c before), after. rewrite append_cons. now rewrite H.
    + intros [[|b before] [after H]].
      * left. exists after. exact H.
      * right. exists before, after. rewrite append_cons in H. now inversion H.
Qed.

Lemma any_condition_in_occurs (conditions : list string) (msg : string) :
  any_condition_in conditions msg = true
  <-> exists tok, In tok conditions /\ occurs_in tok msg.
Proof.
  unfold any_condition_in. rewrite existsb_exists.
  split; intros [tok [Hin H]]; exists tok; split; auto;
    now apply str_in_occurs.
Qed.

Lemma any_condition_in_none (conditions : list string) (msg : string) :
  any_condition_in conditions msg = false
  <-> forall tok, In tok conditions -> ~ occurs_in tok msg.
Proof.
  rewrite <- not_true_iff_false, any_condition_in_occurs. split.
  - intros H tok Hin Hocc. apply H. now exists tok.
  - intros H [tok [Hin Hocc]]. now apply (H tok).
Qed.

(* --------------------------------------------------------------------- *)
(** *** should_retry *)

(** C2, as the code has it.  [should_retry] answers by the first rule that
    applies, in this order: an instance of ConnectionError, TimeoutError or
    asyncio.TimeoutError is retryable; else a lowercased message in which
    one of timeout, connection, network, 503, 502, 504, 429, rate limit,
    too many requests occurs is retryable; else one in which 401, 403, 404,
    invalid api key, authentication or authorization occurs is not
    retryable; else one in which 500 or 5xx occurs is retryable; every
    other exception is not retryable. *)
Theorem should_retry_classification (e : exn) :
  let msg := str_lower (py_str e) in
  should_retry e = true
  <-> network_error e
      \/ (exists tok, In tok retryable_conditions /\ occurs_in tok msg)
      \/ ((forall tok, In tok non_retryable_conditions -> ~ occurs_in tok msg)
          /\ (occurs_in "500" msg \/ occurs_in "5xx" msg)).
Proof.
  intros msg. unfold should_retry, network_error. fold msg.
  destruct (isinstance e _) eqn:Hi.
  { split; auto. }
  destruct (any_condition_in retryable_conditions msg) eqn:Hr.
  { split; auto. intros _. right; left. now apply any_condition_in_occurs. }
  assert (Hr' : ~ exists tok, In tok retryable_conditions /\ occurs_in tok msg).
  { rewrite <- any_condition_in_occurs. congruence. }
  destruct (any_condition_in non_retryable_conditions msg) eqn:Hn.
  { split; [discriminate|]. intros [H|[H|[H _]]]; [discriminate|contradiction|].
    apply any_condition_in_none in H. congruence. }
  destruct (str_in "500" msg || str_in "5xx" msg) eqn:H5.
  - split; auto. intros _. right; right. split.
    + now apply any_condition_in_none.
    + apply orb_true_iff in H5. rewrite <- !str_in_occurs. exact H5.
  - split; [discriminate|]. intros [H|[H|[_ H]]]; [discriminate|contradiction|].
    rewrite <- !str_in_occurs, <- orb_true_iff in H. congruence.
Qed.

(** C10.  A retryable token in the message decides: whatever else occurs
    in it, a token of the non-retryable list included, [should_retry]
    answers true, and [retry_async] goes on to the backoff sleep and the
    next attempt when the failed attempt was not the last one. *)
Theorem should_retry_retryable_token_first
    (e : exn) (retryable non_retryable : string) :
  In retryable retryable_conditions ->
  In non_retryable non_retryable_conditions ->
  occurs_in retryable (str_lower (py_str e)) ->
  occurs_in non_retryable (str_lower (py_str e)) ->
  should_retry e = true
  /\ forall {A R} (func : A -> M S R) (args : A) (config : RetryConfig)
       (attempt : Z) (rest : list Z) (last : option exn) (w w' : world S),
       func args w = (Raise e, w') ->
       attempt <> max_attempts config - 1 ->
       retry_loop func args config (attempt :: rest) last w
       = (delay <- calculate_delay config attempt ;;
          asyncio_sleep delay ;;;
          retry_loop func args config rest (Some e)) w'.
Proof.
  intros Hr Hn Hor Hon.
  assert (Hs : should_retry e = true).
  { unfold should_retry. destruct (isinstance e _); [reflexivity|].
    replace (any_condition_in retryable_conditions (str_lower (py_str e)))
      with true; [reflexivity|].
    symmetry. apply any_condition_in_occurs. now exists retryable. }
  split; [exact Hs|].
  intros A R func args config attempt rest last w w' Hf Hlast.
  simpl. unfold try_except at 1. rewrite Hf, Hs. simpl.
  apply Z.eqb_neq in Hlast. now rewrite Hlast.
Qed.

(* --------------------------------------------------------------------- *)
(** *** calculate_delay *)

(** **** Rounding *)

Lemma round_half_even_bounds (x : Q) :
  Qfloor x <= round_half_even x <= Qfloor x + 1.
Proof.
  unfold round_half_even.
  destruct (x - inject_Z (Qfloor x) ?= 1 # 2)%Q; [destruct (Z.even _)| |]; lia.
Qed.

Lemma round_half_even_mono (x y : Q) :
  (x <= y)%Q -> round_half_even x <= round_half_even y.
Proof.
  intros Hxy. pose proof (Qfloor_resp_le _ _ Hxy) as Hf.
  destruct (Z.eq_dec (Qfloor x) (Qfloor y)) as [Heq|Hne].
  - unfold round_half_even. rewrite <- Heq.
    destruct (Qcompare_spec (x - inject_Z (Qfloor x)) (1 # 2)) as [H1|H1|H1];
      destruct (Qcompare_spec (y - inject_Z (Qfloor x)) (1 # 2)) as [H2|H2|H2];
      try destruct (Z.even (Qfloor x)); try lia; exfalso; lra.
  - pose proof (round_half_even_bounds x). pose proof (round_half_even_bounds y).
    lia.
Qed.

Lemma round_half_even_Z (n : Z) : round_half_even (inject_Z n) = n.
Proof.
  unfold round_half_even. rewrite Qfloor_Z.
  destruct (Qcompare_spec (inject_Z n - inject_Z n) (1 # 2)) as [H|H|H];
    [exfalso; lra | reflexivity | exfalso; lra].
Qed.

Lemma round_half_even_comp (x y : Q) :
  (x == y)%Q -> round_half_even x = round_half_even y.
Proof.
  intros H. apply Z.le_antisymm; apply round_half_even_mono; lra.
Qed.

Lemma two_pow_pos (k : Z) : (0 < 2 ^ k)%Q.
Proof. apply Qpower_0_lt. reflexivity. Qed.

Lemma two_pow_add (a b : Z) : (2 ^ (a + b) == 2 ^ a * 2 ^ b)%Q.
Proof. apply Qpower_plus. discriminate. Qed.

Lemma two_pow_le (a b : Z) : a <= b -> (2 ^ a <= 2 ^ b)%Q.
Proof. intros H. apply Qpower_le_compat_l; [exact H | discriminate]. Qed.

Lemma two_pow_lt_inv (a b : Z) : (2 ^ a < 2 ^ b)%Q -> a < b.
Proof. intros H. apply (Qpower_lt_compat_l_inv 2); [exact H | reflexivity]. Qed.

Lemma two_pow_Z (k : Z) : 0 <= k -> (2 ^ k == inject_Z (2 ^ k))%Q.
Proof. intros H. symmetry. apply (Zpower_Qpower 2 k H). Qed.

Lemma two_pow_sub (a b : Z) : (2 ^ (a - b) == 2 ^ a / 2 ^ b)%Q.
Proof. apply Qpower_minus. discriminate. Qed.

Lemma Qlog2_spec (q : Q) :
  (0 < q)%Q -> (2 ^ Qlog2 q <= q)%Q /\ (q < 2 ^ (Qlog2 q + 1))%Q.
Proof.
  intros Hq. destruct q as [n d]. unfold Qlog2. cbn [Qnum Qden].
  assert (Hn : 0 < n) by (unfold Qlt in Hq; cbn in Hq; lia).
  set (a := Z.log2 n). set (b := Z.log2 (Z.pos d)).
  destruct (Z.log2_spec n Hn) as [Ha1 Ha2]. fold a in Ha1, Ha2.
  destruct (Z.log2_spec (Z.pos d) ltac:(lia)) as [Hb1 Hb2]. fold b in Hb1, Hb2.
  assert (Ha0 : 0 <= a) by apply Z.log2_nonneg.
  assert (Hb0 : 0 <= b) by apply Z.log2_nonneg.
  assert (HN1 : (2 ^ a <= inject_Z n)%Q).
  { rewrite two_pow_Z by lia. rewrite <- Zle_Qle. exact Ha1. }
  assert (HN2 : (inject_Z n < 2 ^ (a + 1))%Q).
  { rewrite two_pow_Z by lia. rewrite <- Zlt_Qlt.
    rewrite <- Z.add_1_r in Ha2. exact Ha2. }
  assert (HD1 : (2 ^ b <= inject_Z (Z.pos d))%Q).
  { rewrite two_pow_Z by lia. rewrite <- Zle_Qle. exact Hb1. }
  assert (HD2 : (inject_Z (Z.pos d) < 2 ^ (b + 1))%Q).
  { rewrite two_pow_Z by lia. rewrite <- Zlt_Qlt.
    rewrite <- Z.add_1_r in Hb2. exact Hb2. }
  assert (HD0 : (0 < inject_Z (Z.pos d))%Q) by (rewrite <- (Zlt_Qlt 0); lia).
  assert (Hq' : (n # d == inject_Z n / inject_Z (Z.pos d))%Q) by apply Qmake_Qdiv.
  destruct (Qle_bool (2 ^ (a - b)) (n # d)) eqn:Hc.
  - apply Qle_bool_iff in Hc. split; [exact Hc|].
    rewrite Hq'. apply Qlt_shift_div_r; [exact HD0|].
    assert (He : (2 ^ (a - b + 1) * 2 ^ b == 2 ^ (a + 1))%Q).
    { rewrite <- two_pow_add. apply Qpower_comp; [reflexivity | lia]. }
    pose proof (two_pow_pos (a - b + 1)).
    nra.
  - assert (Hc' : (n # d < 2 ^ (a - b))%Q).
    { apply Qnot_le_lt. intros H. apply Qle_bool_iff in H. congruence. }
    split.
    + rewrite Hq'. apply Qle_shift_div_l; [exact HD0|].
      assert (He : (2 ^ (a - b - 1) * 2 ^ (b + 1) == 2 ^ a)%Q).
      { rewrite <- two_pow_add. apply Qpower_comp; [reflexivity | lia]. }
      pose proof (two_pow_pos (a - b - 1)).
      nra.
    + replace (a - b - 1 + 1) with (a - b) by lia. exact Hc'.
Qed.

Lemma Qlog2_mono (x y : Q) : (0 < x)%Q -> (x <= y)%Q -> Qlog2 x <= Qlog2 y.
Proof.
  intros Hx Hxy.
  destruct (Qlog2_spec x Hx) as [H1 _].
  destruct (Qlog2_spec y ltac:(lra)) as [_ H2].
  assert (H : (2 ^ Qlog2 x < 2 ^ (Qlog2 y + 1))%Q) by lra.
  apply two_pow_lt_inv in H. lia.
Qed.

Lemma round_finite_eq (q : Q) :
  ~ (q == 0)%Q -> (round_finite q == on_grid q (ulp_exponent q))%Q.
Proof.
  intros H. unfold round_finite.
  destruct (Qeq_bool q 0) eqn:Hq; [apply Qeq_bool_iff in Hq; contradiction|].
  apply Qred_correct.
Qed.

Lemma round_finite_0 (q : Q) : (q == 0)%Q -> round_finite q = 0%Q.
Proof.
  intros H. unfold round_finite.
  destruct (Qeq_bool q 0) eqn:Hq; [reflexivity|].
  apply Qeq_bool_neq in Hq. contradiction.
Qed.

Lemma on_grid_mono (x y : Q) (e : Z) :
  (x <= y)%Q -> (on_grid x e <= on_grid y e)%Q.
Proof.
  intros H. unfold on_grid. pose proof (two_pow_pos e) as Hp.
  apply Qmult_le_compat_r; [|lra].
  rewrite <- Zle_Qle. apply round_half_even_mono.
  apply Qmult_le_compat_r; [exact H|].
  apply Qlt_le_weak. now apply Qinv_lt_0_compat.
Qed.

Lemma on_grid_point (k e : Z) : e <= k -> (on_grid (2 ^ k) e == 2 ^ k)%Q.
Proof.
  intros H. unfold on_grid.
  assert (Hd : (2 ^ k / 2 ^ e == inject_Z (2 ^ (k - e)))%Q).
  { rewrite <- two_pow_sub. apply two_pow_Z. lia. }
  rewrite (round_half_even_comp _ _ Hd), round_half_even_Z, <- two_pow_Z by lia.
  rewrite <- two_pow_add. apply Qpower_comp; [reflexivity | lia].
Qed.

Lemma on_grid_nonneg (x : Q) (e : Z) : (0 <= x)%Q -> (0 <= on_grid x e)%Q.
Proof.
  intros H. unfold on_grid. pose proof (two_pow_pos e) as Hp.
  apply Qmult_le_0_compat; [|lra].
  rewrite <- (Zle_Qle 0). rewrite <- (round_half_even_Z 0).
  apply round_half_even_mono. change (inject_Z 0) with 0%Q.
  apply Qle_shift_div_l; [exact Hp | lra].
Qed.

Lemma round_finite_nonneg (x : Q) : (0 <= x)%Q -> (0 <= round_finite x)%Q.
Proof.
  intros H. destruct (Qeq_dec x 0) as [H0|H0].
  - rewrite (round_finite_0 x H0). lra.
  - rewrite (round_finite_eq x H0). now apply on_grid_nonneg.
Qed.

Lemma Qabs_nonneg_eq (x : Q) : (0 <= x)%Q -> Qabs x = x.
Proof.
  destruct x as [n d]. unfold Qle, Qabs. cbn. intros H.
  f_equal. apply Z.abs_eq. lia.
Qed.

(** Rounding keeps the order of the numbers that are not negative. *)
Lemma round_finite_mono (x y : Q) :
  (0 <= x)%Q -> (x <= y)%Q -> (round_finite x <= round_finite y)%Q.
Proof.
  intros Hx Hxy. destruct (Qeq_dec x 0) as [H0|H0].
  { rewrite (round_finite_0 x H0). apply round_finite_nonneg. lra. }
  assert (Hx0 : (0 < x)%Q)
    by (destruct (Qlt_le_dec 0 x); [auto | exfalso; apply H0; lra]).
  assert (Hy0 : (0 < y)%Q) by lra.
  rewrite (round_finite_eq x) by exact H0.
  rewrite (round_finite_eq y) by (intros E; lra).
  unfold ulp_exponent.
  rewrite (Qabs_nonneg_eq x) by lra. rewrite (Qabs_nonneg_eq y) by lra.
  pose proof (Qlog2_mono x y Hx0 Hxy) as HE.
  destruct (Qlog2_spec x Hx0) as [_ Hxu].
  destruct (Qlog2_spec y Hy0) as [Hyl _].
  set (Ex := Qlog2 x) in *. set (Ey := Qlog2 y) in *.
  destruct (Z.eq_dec (Z.max (Ex - 52) (-1074)) (Z.max (Ey - 52) (-1074)))
    as [He|He].
  - rewrite He. now apply on_grid_mono.
  - assert (Hlt : Z.max (Ex - 52) (-1074) < Ey - 52) by lia.
    assert (Hey : Z.max (Ey - 52) (-1074) = Ey - 52) by lia.
    rewrite Hey.
    apply Qle_trans with (2 ^ Ey)%Q.
    + rewrite <- (on_grid_point Ey (Z.max (Ex - 52) (-1074))) by lia.
      apply on_grid_mono.
      apply Qle_trans with (2 ^ (Ex + 1))%Q; [lra|]. apply two_pow_le. lia.
    + rewrite <- (on_grid_point Ey (Ey - 52)) at 1 by lia.
      now apply on_grid_mono.
Qed.

Lemma Qle_bool_false (a b : Q) : Qle_bool a b = false -> (b < a)%Q.
Proof.
  intros H. apply Qnot_le_lt. intros Hle. apply Qle_bool_iff in Hle. congruence.
Qed.

Lemma fround_nonneg (q : Q) :
  (0 <= q)%Q ->
  fround q = if Qle_bool (2 ^ 1024) (round_finite q) then Inf false
             else Num (round_finite q).
Proof.
  intros H. unfold fround. pose proof (round_finite_nonneg q H) as Hr.
  rewrite (Qabs_nonneg_eq _ Hr).
  apply Qle_bool_iff in Hr. now rewrite Hr.
Qed.

Lemma fround_mono (x y : Q) :
  (0 <= x)%Q -> (x <= y)%Q -> fle (fround x) (fround y) = true.
Proof.
  intros Hx Hxy. pose proof (round_finite_mono x y Hx Hxy) as Hr.
  rewrite (fround_nonneg x Hx), (fround_nonneg y) by lra.
  destruct (Qle_bool (2 ^ 1024) (round_finite x)) eqn:H1;
    destruct (Qle_bool (2 ^ 1024) (round_finite y)) eqn:H2; cbn; auto.
  - apply Qle_bool_iff in H1. apply Qle_bool_false in H2. exfalso. lra.
  - now apply Qle_bool_iff.
Qed.

(** Below a bound that does not overflow, the result is finite. *)
Lemma fround_bounded (q bound : Q) :
  (0 <= q)%Q -> (q <= bound)%Q -> (round_finite bound < 2 ^ 1024)%Q ->
  exists r, fround q = Num r /\ (0 <= r)%Q /\ (r <= round_finite bound)%Q.
Proof.
  intros H0 Hb Hfin. pose proof (round_finite_mono q bound H0 Hb) as Hr.
  exists (round_finite q). rewrite (fround_nonneg q H0).
  destruct (Qle_bool (2 ^ 1024) (round_finite q)) eqn:H1.
  - apply Qle_bool_iff in H1. exfalso. lra.
  - split; [reflexivity|]. split; [now apply round_finite_nonneg | exact Hr].
Qed.

(** **** Comparisons and min *)





(** **** The power *)






(** **** calculate_delay *)

Lemma calculate_delay_no_jitter (cfg : RetryConfig) (attempt : Z) (w : world S) :
  jitter cfg = false ->
  calculate_delay cfg attempt w
  = (match float_pow (exponential_base cfg) attempt with
     | inl e => Raise e
     | inr power =>
         Return (py_min (fmul (base_delay cfg) power) (max_delay cfg))
     end, w).
Proof.
  intros Hj. unfold calculate_delay, bind, raise_or_ret.
  destruct (float_pow (exponential_base cfg) attempt) as [e|power];
    [reflexivity|].
  unfold ret. now rewrite Hj.
Qed.


(* --------------------------------------------------------------------- *)
(** *** execute_fallback_chain *)

Lemma fallback_loop_all_fail {A R} (args : A)
    (fs : list ((A -> M S R) * string)) (w w' : world S) :
  all_fail args fs w w' ->
  forall level, fallback_loop fs level args w = (Return None, w').
Proof.
  induction 1 as [w | f name rest w w1 w2 e Hf _ IH]; intros level.
  - reflexivity.
  - simpl. unfold try_except, bind. rewrite Hf. apply IH.
Qed.

Lemma fallback_loop_first_success {A R} (args : A)
    (before after : list ((A -> M S R) * string)) (f : A -> M S R)
    (name : string) (v : R) (w w1 w2 : world S) :
  all_fail args before w w1 ->
  f args w1 = (Return v, w2) ->
  forall level,
    fallback_loop (before ++ (f, name) :: after)%list level args w
    = (Return (Some (mkFallbackResult true (Some v) (Some name)
                       (level + Z.of_nat (length before)) None)), w2).
Proof.
  intros Hfail Hf.
  induction Hfail as [w | g gname rest w w1 w1' e Hg _ IH]; intros level.
  - simpl. unfold try_except, bind. rewrite Hf. unfold ret.
    now rewrite Z.add_0_r.
  - simpl app. cbn [fallback_loop]. unfold try_except at 1. unfold bind at 1.
    rewrite Hg. rewrite (IH Hf). do 4 f_equal. simpl length. lia.
Qed.

Lemma execute_fallback_chain_primary_fails {A R} (service_type : ServiceType)
    (primary_func : A -> M S R) (primary_name : string) (args : A)
    (fallback_funcs : option (list ((A -> M S R) * string)))
    (e : exn) (w w1 : world S) :
  primary_func args w = (Raise e, w1) ->
  execute_fallback_chain service_type primary_func primary_name args
    fallback_funcs w
  = match fallback_loop (candidates fallback_funcs) 1 args w1 with
    | (Return (Some r), w2) => (Return r, w2)
    | (Return None, w2) =>
        (Return (mkFallbackResult false None None (-1) (Some e)), w2)
    | (Raise e', w2) => (Raise e', w2)
    | (Cancelled, w2) => (Cancelled, w2)
    end.
Proof.
  intros Hp. unfold execute_fallback_chain, try_except at 1, bind at 1.
  rewrite Hp. unfold bind.
  destruct fallback_funcs as [[|c cs]|]; simpl candidates.
  - reflexivity.
  - destruct (fallback_loop (c :: cs) 1 args w1) as [[[r|]|e'|] w2]; reflexivity.
  - reflexivity.
Qed.

(** C1.  When the primary raises and every fallback candidate raises too
    (or there is none: the list is empty or None), the result is
    FallbackResult(success=False, result=None, provider_used=None,
    fallback_level=-1, error=e) where [e] is the exception the primary
    raised. *)
Theorem execute_fallback_chain_exhausted {A R} (service_type : ServiceType)
    (primary_func : A -> M S R) (primary_name : string) (args : A)
    (fallback_funcs : option (list ((A -> M S R) * string)))
    (e : exn) (w w1 w2 : world S) :
  primary_func args w = (Raise e, w1) ->
  all_fail args (candidates fallback_funcs) w1 w2 ->
  execute_fallback_chain service_type primary_func primary_name args
    fallback_funcs w
  = (Return (mkFallbackResult false None None (-1) (Some e)), w2).
Proof.
  intros Hp Hfail.
  rewrite (execute_fallback_chain_primary_fails _ _ _ _ _ _ _ _ Hp).
  now rewrite (fallback_loop_all_fail _ _ _ _ Hfail).
Qed.

(** C4.  When the primary raises, the candidates are run in the order of
    the list, each on the world its predecessor left; those that raise are
    passed over, and the first that returns ends the chain: the result
    carries its value, its name and its 1-indexed position in the list,
    and no later candidate runs. *)
Theorem execute_fallback_chain_first_success {A R} (service_type : ServiceType)
    (primary_func : A -> M S R) (primary_name : string) (args : A)
    (before after : list ((A -> M S R) * string))
    (f : A -> M S R) (name : string) (v : R)
    (e : exn) (w w1 w2 w3 : world S) :
  primary_func args w = (Raise e, w1) ->
  all_fail args before w1 w2 ->
  f args w2 = (Return v, w3) ->
  execute_fallback_chain service_type primary_func primary_name args
    (Some (before ++ (f, name) :: after)%list) w
  = (Return (mkFallbackResult true (Some v) (Some name)
               (Z.of_nat (length before) + 1) None), w3).
Proof.
  intros Hp Hfail Hf.
  rewrite (execute_fallback_chain_primary_fails _ _ _ _ _ _ _ _ Hp).
  simpl candidates.
  rewrite (fallback_loop_first_success _ _ _ _ _ _ _ _ _ Hfail Hf).
  do 3 f_equal. lia.
Qed.

(* --------------------------------------------------------------------- *)
(** *** retry_async *)

Lemma expires_no_deadline (seconds : Q) (w : world S) :
  deadline w = None -> expires seconds w = false.
Proof. intros H. unfold expires. now rewrite H. Qed.

Lemma external_no_deadline {A R} (name : string) (repr : A -> string)
    (svc : service S A R) (a : A) (w : world S)
    (seconds : Q) (answer : exn + R) (s' : S) :
  deadline w = None ->
  svc a (ext w) = (seconds, answer, s') ->
  external name repr svc a w
  = (match answer with inl e => Raise e | inr v => Return v end,
     advance seconds (set_ext s' (log_event (Call name (repr a)) w))).
Proof.
  intros Hd Hs. unfold external. simpl ext. rewrite Hs.
  now rewrite expires_no_deadline.
Qed.

Lemma asyncio_sleep_no_deadline (seconds : Q) (w : world S) :
  deadline w = None ->
  asyncio_sleep seconds w
  = (Return tt, advance seconds (log_event (Sleep seconds) w)).
Proof. intros Hd. unfold asyncio_sleep. now rewrite expires_no_deadline. Qed.

(** [calculate_delay] returns or raises, and touches nothing but the
    random generator. *)
Lemma calculate_delay_world (cfg : RetryConfig) (attempt : Z) (w : world S) :
  exists o w',
    calculate_delay cfg attempt w = (o, w')
    /\ o <> Cancelled
    /\ deadline w' = deadline w /\ trace w' = trace w
    /\ files w' = files w /\ now w' = now w
    /\ (ext w' = ext w \/ ext w' = snd (random_oracle (ext w))).
Proof.
  unfold calculate_delay, bind, raise_or_ret.
  destruct (float_pow (exponential_base cfg) attempt) as [e|power].
  { eexists _, w. split; [reflexivity|]. repeat split; auto; discriminate. }
  unfold ret at 1. destruct (jitter cfg).
  - unfold random_random. destruct (random_oracle (ext w)) as [r s'].
    do 2 eexists. split; [reflexivity|]. repeat split; auto; discriminate.
  - eexists _, w. split; [reflexivity|]. repeat split; auto; discriminate.
Qed.

Lemma calculate_delay_finite (cfg : RetryConfig) (n attempt : Z) (w : world S) :
  finite_delays cfg n -> 0 <= attempt < n ->
  exists d w',
    calculate_delay cfg attempt w = (Return (Num d), w')
    /\ deadline w' = deadline w /\ trace w' = trace w
    /\ files w' = files w
    /\ (ext w' = ext w \/ ext w' = snd (random_oracle (ext w))).
Proof.
  intros Hfin Ha. destruct (Hfin attempt w Ha) as [d Hd].
  destruct (calculate_delay_world cfg attempt w)
    as (o & w' & Hrun & _ & H1 & H2 & H3 & _ & H4).
  rewrite Hrun in Hd. cbn [fst] in Hd. subst o.
  exists d, w'. auto.
Qed.

Lemma random_random_unit (w : world S) :
  exists r s',
    random_random w = (Return (Num r), set_ext s' w)
    /\ random_oracle (ext w) = (fst (random_oracle (ext w)), s')
    /\ (0 <= r)%Q /\ (r < 1)%Q.
Proof.
  unfold random_random. destruct (random_oracle (ext w)) as [k s'].
  eexists _, s'. split; [reflexivity|]. split; [reflexivity|].
  pose proof (Z.mod_pos_bound k (2 ^ 53) ltac:(lia)) as Hk.
  assert (Hq : (Qred (k mod 2 ^ 53 # 2 ^ 53) == k mod 2 ^ 53 # 2 ^ 53)%Q)
    by apply Qred_correct.
  assert (Hp : Z.pos (2 ^ 53) = 2 ^ 53) by reflexivity.
  split; rewrite Hq; unfold Qle, Qlt; cbn [Qnum Qden]; rewrite Hp; lia.
Qed.

(** The jitter added to a delay that is a number from 0 to 2^1000 leaves
    it a number. *)
Lemma jittered_delay_finite (d r : Q) :
  (0 <= d)%Q -> (d <= 2 ^ 1000)%Q -> (0 <= r)%Q -> (r < 1)%Q ->
  exists d' : Q,
    fadd (Num d) (fmul (fmul (Num d) (Num (1 # 4))) (Num r)) = Num d'
    /\ (0 <= d')%Q /\ (d' <= 2 ^ 1001)%Q.
Proof.
  intros Hd0 Hd Hr0 Hr1. cbn [fmul].
  assert (E0 : round_finite (2 ^ 1000) = (2 ^ 1000)%Q) by (vm_compute; reflexivity).
  assert (E1 : round_finite (2 ^ 1001) = (2 ^ 1001)%Q) by (vm_compute; reflexivity).
  assert (L0 : (2 ^ 1000 < 2 ^ 1024)%Q) by (vm_compute; reflexivity).
  assert (L1 : (2 ^ 1001 < 2 ^ 1024)%Q) by (vm_compute; reflexivity).
  assert (L2 : (2 ^ 1000 + 2 ^ 1000 == 2 ^ 1001)%Q) by (vm_compute; reflexivity).
  destruct (fround_bounded (d * (1 # 4)) (2 ^ 1000)) as (c & Hc & Hc0 & Hc1);
    [lra | lra | rewrite E0; exact L0 |].
  rewrite Hc, E0 in *. cbn [fmul].
  destruct (fround_bounded (c * r) (2 ^ 1000)) as (j & Hj & Hj0 & Hj1);
    [nra | nra | rewrite E0; exact L0 |].
  rewrite Hj, E0 in *. cbn [fadd].
  destruct (fround_bounded (d + j) (2 ^ 1001)) as (d' & Hd' & Hd'0 & Hd'1);
    [lra | lra | rewrite E1; exact L1 |].
  rewrite E1 in Hd'1. exists d'. auto.
Qed.

(** The configuration of the STT stage: the delays of its first two
    attempts are numbers. *)
Lemma finite_delays_STT : finite_delays RETRY_CONFIG_STT 2.
Proof.
  intros a w Ha. unfold calculate_delay, bind, raise_or_ret.
  assert (Hpow : exists p : Q,
             float_pow (exponential_base RETRY_CONFIG_STT) a = inr (Num p)
             /\ exists d : Q,
                  py_min (fmul (base_delay RETRY_CONFIG_STT) (Num p))
                    (max_delay RETRY_CONFIG_STT) = Num d
                  /\ (0 <= d)%Q /\ (d <= 2 ^ 1000)%Q).
  { assert (Hcases : a = 0 \/ a = 1) by lia.
    destruct Hcases as [-> | ->].
    - exists 1%Q. split; [vm_compute; reflexivity|].
      exists 1%Q. split; [vm_compute; reflexivity|].
      split; vm_compute; discriminate.
    - exists 2%Q. split; [vm_compute; reflexivity|].
      exists 2%Q. split; [vm_compute; reflexivity|].
      split; vm_compute; discriminate. }
  destruct Hpow as (p & -> & d & Hd & Hd0 & Hd1).
  unfold ret at 1. cbn [jitter RETRY_CONFIG_STT].
  change (base_delay (mkRetryConfig 3 1 5 2 true))
    with (base_delay RETRY_CONFIG_STT).
  change (max_delay (mkRetryConfig 3 1 5 2 true))
    with (max_delay RETRY_CONFIG_STT).
  rewrite Hd.
  destruct (random_random_unit w) as (r & s' & Hr & _ & Hr0 & Hr1).
  rewrite Hr.
  destruct (jittered_delay_finite d r Hd0 Hd1 Hr0 Hr1) as (d' & Hd' & _).
  unfold ret. rewrite Hd'. now exists d'.
Qed.

Lemma py_range_bounds (n : Z) :
  List.Forall (fun a => 0 <= a < n) (py_range n).
Proof.
  unfold py_range. apply List.Forall_forall. intros a Ha.
  apply in_map_iff in Ha. destruct Ha as (k & <- & Hk).
  apply in_seq in Hk. lia.
Qed.



(* --------------------------------------------------------------------- *)
(** *** unified_inference *)

Lemma str_in_truthy (tok s : string) :
  tok <> "" -> str_in tok s = true -> str_truthy s = true.
Proof.
  intros Htok H. destruct s; [|reflexivity].
  rewrite str_in_nil, orb_false_r in H. destruct tok; [congruence|discriminate].
Qed.

Ltac pass_step0 Hacc :=
  let ct := fresh "ct" in
  let Hct := fresh "Hct" in
  let Haudio := fresh "Haudio" in
  let Hlen := fresh "Hlen" in
  destruct Hacc as [[ct [Hct Haudio]] Hlen];
  unfold unified_inference;
  rewrite Hct, Haudio, (str_in_truthy "audio" ct ltac:(discriminate) Haudio);
  cbn [negb orb];
  replace (len (audio_bytes _) =? 0) with false
    by (symmetry; apply Z.eqb_neq; lia);
  replace (len (audio_bytes _) >? MAX_AUDIO_SIZE) with false
    by (symmetry; rewrite Z.gtb_ltb; apply Z.ltb_ge; lia).

(** C6.  When the STT stage is cut short by its deadline (STT_TIMEOUT = 30
    seconds after the stage was started), the request ends in
    HTTPException(504, Speech recognition timed out), and it ends in the
    world the cancelled STT stage left: whatever the AI and TTS stage
    functions are, neither is called. *)
Theorem stt_timeout_aborts_pipeline
    (stt : string -> M S (option string))
    (ai : string -> option string -> M S string)
    (tts : string -> M S (list string))
    (req : request) (w w1 : world S) :
  accepted req ->
  deadline w = None ->
  stt (audio_bytes req) (set_deadline (Some (now w + STT_TIMEOUT)%Q) w)
  = (Cancelled, w1) ->
  unified_inference stt ai tts req w
  = (Raise (HTTPExc 504 "Speech recognition timed out"), set_deadline None w1).
Proof.
  intros Hacc Hd Hstt. pass_step0 Hacc.
  unfold try_except at 1. unfold bind at 1. unfold time_time at 1.
  unfold bind at 1. unfold try_except at 1. unfold bind at 1.
  unfold wait_for at 1. rewrite Hd, Hstt. reflexivity.
Qed.

Lemma length_substring_0 (n : nat) (s : string) :
  String.length (String.substring 0 n s) = Nat.min n (String.length s).
Proof.
  revert n. induction s as [|c s IH]; intros [|n]; simpl; auto.
Qed.

Lemma len_str_take (n : Z) (s : string) :
  0 <= n <= len s -> len (str_take n s) = n.
Proof.
  intros H. unfold len, str_take in *. rewrite length_substring_0. lia.
Qed.

Lemma len_append (a b : string) : len (a ++ b) = len a + len b.
Proof.
  unfold len. induction a as [|c a IH].
  - rewrite append_nil_l. simpl. lia.
  - rewrite append_cons. simpl String.length. lia.
Qed.

(** The transcript as STEP 2 receives it has at most 1000 characters. *)
Lemma len_truncated_transcript (transcript : string) :
  len (if len transcript >? 1000 then str_take 1000 transcript else transcript)
  <= 1000.
Proof.
  destruct (len transcript >? 1000) eqn:Hlong.
  - rewrite len_str_take; [lia|]. apply Z.gtb_lt in Hlong. lia.
  - rewrite Z.gtb_ltb in Hlong. apply Z.ltb_ge in Hlong. exact Hlong.
Qed.

(** The reply as STEP 3 receives it. *)
Lemma len_truncated_reply (reply : string) :
  4096 < len reply ->
  4096 < len (if len reply >? 5000 then str_take 5000 reply ++ "..." else reply).
Proof.
  intros H. destruct (len reply >? 5000) eqn:Hlong; [|exact H].
  rewrite len_append, len_str_take.
  - change (len "...") with 3. lia.
  - apply Z.gtb_lt in Hlong. lia.
Qed.

(** C5, where the code departs from it.  An AI reply of more than 4096
    characters does not go on to the TTS stage: cut to its first 5000
    characters and three dots when it has more than 5000, it is still
    longer than the 4096 characters [TTSRequest] admits, the request model
    raises, and the request ends in HTTPException(500) in the world the
    AI stage left. *)
Theorem overlong_reply_is_rejected
    (stt : string -> M S (option string))
    (ai : string -> option string -> M S string)
    (tts : string -> M S (list string))
    (req : request) (w w1 w2 : world S) (transcript reply : string) :
  accepted req ->
  conversation req = None ->
  wait_for (stt (audio_bytes req)) STT_TIMEOUT w = (Return (Some transcript), w1) ->
  py_blank transcript = false ->
  wait_for
    (ai (if len transcript >? 1000 then str_take 1000 transcript else transcript)
        None)
    AI_TIMEOUT w1 = (Return reply, w2) ->
  py_blank reply = false ->
  4096 < len reply ->
  exists detail,
    unified_inference stt ai tts req w = (Raise (HTTPExc 500 detail), w2).
Proof.
  intros Hacc Hconv Hstt Ht Hai Hr Hlong. pass_step0 Hacc.
  unfold try_except at 1. unfold bind at 1. unfold time_time at 1.
  unfold bind at 1. unfold try_except at 1. unfold bind at 1.
  rewrite Hstt. unfold bind at 1. unfold time_time at 1. unfold ret at 1.
  rewrite Ht.
  unfold bind at 1. unfold time_time at 1.
  unfold bind at 1. unfold try_except at 1. unfold bind at 1.
  rewrite Hconv. unfold parse_conversation at 1. unfold ret at 1.
  unfold bind at 1. rewrite Hai.
  unfold bind at 1. unfold time_time at 1. unfold ret at 1.
  rewrite Hr.
  unfold bind at 1. unfold try_except at 1. unfold bind at 1.
  unfold TTSRequest.
  pose proof (len_truncated_reply reply Hlong) as Hover.
  match goal with |- context [py_blank ?x] => destruct (py_blank x) end.
  - eexists. reflexivity.
  - replace (len _ >? 4096) with true
      by (symmetry; apply Z.gtb_lt; exact Hover).
    eexists. reflexivity.
Qed.

(* --------------------------------------------------------------------- *)
(** *** transcribe *)

(** C8, where the code departs from it.  When ffmpeg fails before it
    creates its output file, the [finally] clause of [transcribe] removes
    the upload copy and then calls [os.remove] on the converted path, which
    is bound but names no file: the FileNotFoundError of the cleanup is
    what [transcribe] raises, in place of ffmpeg's error [e]. *)
Theorem transcribe_cleanup_replaces_ffmpeg_error
    (chain : list ((string -> M S string) * string)) (audio : string)
    (w : world S) (u1 u2 : string) (s1 s2 s3 : S) (seconds : Q) (e : exn) :
  let temp_filepath := "/tmp/" ++ u1 ++ ".wav" in
  let converted_filepath := "/tmp/converted-" ++ u2 ++ ".wav" in
  uuid4_oracle (ext w) = (u1, s1) ->
  write_oracle temp_filepath audio s1 = None ->
  uuid4_oracle s1 = (u2, s2) ->
  ffmpeg_oracle (Some audio) s2 = (seconds, FailedNoOutput e, s3) ->
  temp_filepath <> converted_filepath ->
  files w !! converted_filepath = None ->
  exists w',
    transcribe_with chain audio w = (Raise (no_such_file converted_filepath), w')
    /\ files w' = delete temp_filepath (<[temp_filepath := audio]> (files w)).
Proof.
  intros temp conv Hu1 Hwr Hu2 Hff Hne Hfresh.
  unfold transcribe_with.
  unfold bind at 1. unfold uuid4 at 1. rewrite Hu1. cbv zeta. fold temp.
  unfold write_file. wsimpl. rewrite Hwr.
  unfold bind at 1. unfold uuid4 at 1. wsimpl. rewrite Hu2.
  fold conv. unfold try_finally.
  unfold bind at 1. unfold ffmpeg_run at 1.
  wsimpl. rewrite lookup_insert_eq, Hff.
  unfold bind at 1. unfold os_remove at 1.
  wsimpl. rewrite lookup_insert_eq.
  unfold os_remove.
  wsimpl. rewrite lookup_delete_ne by exact Hne.
  rewrite lookup_insert_ne by exact Hne. rewrite Hfresh.
  eexists. split; reflexivity.
Qed.

(** The transcription call fails whenever the endpoint answers with an
    error, whatever else happens before it. *)
Lemma _transcribe_internal_fails (path : string) (w : world S) :
  (forall a s, exists seconds e s', whisper a s = (seconds, inl e, s')) ->
  deadline w = None ->
  exists e w', _transcribe_internal path w = (Raise e, w')
               /\ deadline w' = None /\ files w' = files w.
Proof.
  intros Hwh Hd. unfold _transcribe_internal, bind, AsyncOpenAI, open_rb.
  destruct (client_oracle (ext w)) as [e|].
  { exists e, w. auto. }
  destruct (files w !! path) as [content|].
  2:{ eexists _, w. auto. }
  destruct (Hwh content (ext w)) as (seconds & e & s' & Hs).
  rewrite (external_no_deadline _ _ _ _ _ _ _ _ Hd Hs).
  eexists _, _. split; [reflexivity|]. split; [exact Hd | reflexivity].
Qed.

(** A function that raises at every call makes [retry_async] raise, when
    the delays of its configuration are numbers: at once, or after the
    attempts the configuration allows. *)
Lemma retry_loop_never_returns {A R} (func : A -> M S R) (args : A)
    (cfg : RetryConfig) :
  (forall w, deadline w = None ->
     exists e w', func args w = (Raise e, w')
                  /\ deadline w' = None /\ files w' = files w) ->
  finite_delays cfg (max_attempts cfg - 1) ->
  forall (attempts : list Z) (last : option exn) (w : world S),
    List.Forall (fun a => 0 <= a < max_attempts cfg) attempts ->
    deadline w = None ->
    exists e w', retry_loop func args cfg attempts last w = (Raise e, w')
                 /\ deadline w' = None /\ files w' = files w.
Proof.
  intros Hf Hfin. induction attempts as [|attempt rest IH]; intros last w Hin Hd.
  - destruct last as [e|]; eexists _, w; simpl; auto.
  - destruct (Hf w Hd) as (e & w1 & Hrun & Hd1 & Hfs1).
    inversion Hin as [|? ? Hattempt Hrest]; subst.
    cbn [retry_loop]. unfold try_except. rewrite Hrun.
    destruct (should_retry e); cbn [negb].
    2:{ exists e, w1. auto. }
    destruct (attempt =? max_attempts cfg - 1) eqn:Hlast.
    { exists e, w1. auto. }
    apply Z.eqb_neq in Hlast.
    unfold bind at 1.
    destruct (calculate_delay_finite cfg _ attempt w1 Hfin ltac:(lia))
      as (d & w2 & Hdelay & Hd2 & _ & Hfs2 & _).
    rewrite Hdelay. unfold bind at 1.
    rewrite asyncio_sleep_no_deadline by congruence.
    destruct (IH (Some e) (advance d (log_event (Sleep d) w2)) Hrest)
      as (e' & w' & Hrest' & Hd' & Hfs'); [wsimpl; congruence|].
    exists e', w'. split; [exact Hrest'|]. split; [exact Hd'|].
    rewrite Hfs'. wsimpl. congruence.
Qed.



Lemma parse_conversation_pure (conversation : option string) :
  (forall c e, conversation = Some c -> b64_json_loads c <> DecodeRaises e) ->
  exists messages, forall w, parse_conversation conversation w = (Return messages, w).
Proof.
  intros Hok. unfold parse_conversation. destruct conversation as [c|].
  - destruct (str_truthy c); [|now exists []].
    destruct (b64_json_loads c) as [|e|v] eqn:Hc.
    + now exists [].
    + now destruct (Hok c e eq_refl).
    + eexists. intros w. reflexivity.
  - now exists [].
Qed.








Lemma tmp_files_restored (fs : gmap string string)
    (temp conv audio out : string) :
  temp <> conv -> fs !! temp = None -> fs !! conv = None ->
  delete conv (delete temp (<[conv := out]> (<[temp := audio]> fs))) = fs.
Proof.
  intros Hne Ht Hc. apply map_eq. intros i.
  destruct (decide (i = conv)) as [->|Hic].
  - now rewrite lookup_delete_eq.
  - rewrite lookup_delete_ne by congruence.
    destruct (decide (i = temp)) as [->|Hit].
    + now rewrite lookup_delete_eq.
    + rewrite lookup_delete_ne by congruence.
      rewrite lookup_insert_ne by congruence.
      now rewrite lookup_insert_ne by congruence.
Qed.


(** With the chain [fallback.py] ships, the text-only candidate returns
    its message whenever the endpoint fails, so that message is what
    [transcribe] returns. *)
Lemma transcribe_text_only_mode
    (audio : string) (w : world S) (u1 u2 : string) (s1 s2 s3 : S)
    (seconds : Q) (out : string) :
  let temp_filepath := "/tmp/" ++ u1 ++ ".wav" in
  let converted_filepath := "/tmp/converted-" ++ u2 ++ ".wav" in
  deadline w = None ->
  uuid4_oracle (ext w) = (u1, s1) ->
  write_oracle temp_filepath audio s1 = None ->
  uuid4_oracle s1 = (u2, s2) ->
  ffmpeg_oracle (Some audio) s2 = (seconds, Converted out, s3) ->
  temp_filepath <> converted_filepath ->
  (forall a s, exists t e s', whisper a s = (t, inl e, s')) ->
  exists w',
    transcribe audio w
    = (Return (Some "[Speech recognition unavailable - please type your message]"),
       w')
    /\ deadline w' = None
    /\ files w' = delete converted_filepath (delete temp_filepath
                    (<[converted_filepath := out]>
                       (<[temp_filepath := audio]> (files w)))).
Proof.
  intros temp conv Hd Hu1 Hwr Hu2 Hff Hne Hwh.
  unfold transcribe, transcribe_with.
  unfold bind at 1. unfold uuid4 at 1. rewrite Hu1. cbv zeta. fold temp.
  unfold write_file. wsimpl. rewrite Hwr.
  unfold bind at 1. unfold uuid4 at 1. wsimpl. rewrite Hu2.
  fold conv. unfold try_finally.
  unfold bind at 1. unfold ffmpeg_run at 1.
  wsimpl. rewrite lookup_insert_eq, Hff.
  unfold bind at 1.
  match goal with
  | |- context [execute_fallback_chain _ _ _ _ _ ?w3] => set (w3' := w3)
  end.
  assert (Hd3 : deadline w3' = None) by exact Hd.
  destruct (retry_loop_never_returns _transcribe_internal conv RETRY_CONFIG_STT
              (fun w0 H0 => _transcribe_internal_fails conv w0 Hwh H0)
              finite_delays_STT
              (py_range (max_attempts RETRY_CONFIG_STT)) None w3'
              (py_range_bounds _) Hd3)
    as (e & w4 & Hretry & Hd4 & Hfs4).
  unfold STT_FALLBACK_CHAIN.
  rewrite (execute_fallback_chain_primary_fails STT _transcribe_with_retry
             "OpenAI Whisper" conv _ e w3' w4 Hretry).
  cbn [candidates fallback_loop]. unfold try_except at 1. unfold bind at 1.
  unfold stt_text_only_mode at 1. unfold ret at 1. unfold ret at 1.
  cbn [success negb result]. unfold ret at 1.
  unfold bind at 1. unfold os_remove at 1.
  rewrite Hfs4. unfold w3' at 1. wsimpl.
  rewrite lookup_insert_ne by congruence. rewrite lookup_insert_eq.
  unfold os_remove. unfold w3'. wsimpl.
  rewrite lookup_delete_ne by exact Hne. rewrite lookup_insert_eq.
  eexists. split; [reflexivity|]. wsimpl. split; [exact Hd4 | reflexivity].
Qed.



(* ===================================================================== *)
(** ** Further properties *)
(* ===================================================================== *)

(* --------------------------------------------------------------------- *)
(** *** retry_async, retry_sync, calculate_delay *)

(** X1.  An operation whose first call fails with an error that
    [should_retry] refuses is called once, whatever max_attempts >= 1 is:
    [retry_async] raises that error in the world the call left, without
    computing a delay or sleeping. *)
Theorem retry_async_non_retryable {A R} (func : A -> M S R) (args : A)
    (cfg : RetryConfig) (name : string) (w w' : world S) (e : exn) :
  1 <= max_attempts cfg ->
  func args w = (Raise e, w') ->
  should_retry e = false ->
  retry_async func args (Some cfg) name w = (Raise e, w').
Proof.
  intros HN Hf Hno. unfold retry_async, py_range.
  destruct (Z.to_nat (max_attempts cfg)) as [|m] eqn:Hm; [lia|].
  cbn [seq map retry_loop]. unfold try_except. now rewrite Hf, Hno.
Qed.

(** X2.  With max_attempts <= 0 the loop has no iteration: the operation
    is never called, and the [raise last_exception] that follows the loop
    raises a TypeError, [last_exception] being None. *)
Theorem retry_async_no_attempts {A R} (func : A -> M S R) (args : A)
    (cfg : RetryConfig) (name : string) (w : world S) :
  max_attempts cfg <= 0 ->
  retry_async func args (Some cfg) name w
  = (Raise (Exc TypeError "exceptions must derive from BaseException"), w).
Proof.
  intros HN. unfold retry_async, py_range.
  replace (Z.to_nat (max_attempts cfg)) with 0%nat by lia. reflexivity.
Qed.

Lemma count_calls_app (a b : list event) :
  count_calls (a ++ b) = (count_calls a + count_calls b)%nat.
Proof. induction a as [|[? ?|?] a IH]; simpl; auto. Qed.

Lemma count_sleeps_app (a b : list event) :
  count_sleeps (a ++ b) = (count_sleeps a + count_sleeps b)%nat.
Proof. induction a as [|[? ?|?] a IH]; simpl; auto. Qed.

Section EventualSuccess.

(** The outside knows how many failures are left: [left s] of them. *)
Context {A R : Type} (name : string) (repr : A -> string)
        (svc : service S A R) (args : A) (v : R) (left : S -> nat).
Hypothesis random_keeps_left :
  forall s, left (snd (random_oracle s)) = left s.
Hypothesis svc_fails_while_left :
  forall s n, left s = Datatypes.S n ->
    exists seconds e s',
      svc args s = (seconds, inl e, s') /\ should_retry e = true /\ left s' = n.
Hypothesis svc_answers_then :
  forall s, left s = 0%nat -> exists seconds s', svc args s = (seconds, inr v, s').

Lemma retry_loop_countdown (cfg : RetryConfig) :
  forall (k : nat) (w : world S) (j m : nat) (last : option exn),
    left (ext w) = k ->
    deadline w = None ->
    (k < m)%nat ->
    Z.of_nat (j + m) = max_attempts cfg ->
    finite_delays cfg (Z.of_nat (j + k)) ->
    exists w' evs,
      retry_loop (external name repr svc) args cfg
        (map Z.of_nat (seq j m)) last w = (Return v, w')
      /\ trace w' = (trace w ++ evs)%list
      /\ count_calls evs = Datatypes.S k
      /\ count_sleeps evs = k.
Proof.
  induction k as [|k IH]; intros w j m last Hk Hd Hm HN Hfin.
  - destruct m as [|m]; [lia|].
    destruct (svc_answers_then (ext w) Hk) as (seconds & s' & Hs).
    cbn [seq map retry_loop]. unfold try_except.
    rewrite (external_no_deadline _ _ _ _ _ _ _ _ Hd Hs).
    do 2 eexists. split; [reflexivity|]. split; [reflexivity|]. split; reflexivity.
  - destruct m as [|[|m]]; [lia|lia|].
    destruct (svc_fails_while_left (ext w) k Hk) as (seconds & e & s' & Hs & Hre & Hs').
    set (w1 := advance seconds (set_ext s' (log_event (Call name (repr args)) w))).
    destruct (calculate_delay_finite cfg _ (Z.of_nat j) w1 Hfin ltac:(lia))
      as (d & w2 & Hdelay & Hd2 & Ht2 & _ & Hext).
    set (w3 := advance d (log_event (Sleep d) w2)).
    assert (Hk3 : left (ext w3) = k).
    { unfold w3. wsimpl. destruct Hext as [-> | ->].
      - exact Hs'.
      - rewrite random_keeps_left. exact Hs'. }
    destruct (IH w3 (Datatypes.S j) (Datatypes.S m) (Some e) Hk3)
      as (w' & evs & Hrun & Htr & Hc & Hsl).
    { unfold w3. wsimpl. now rewrite Hd2. }
    { lia. }
    { lia. }
    { replace (Datatypes.S j + k)%nat with (j + Datatypes.S k)%nat by lia.
      exact Hfin. }
    exists w', (Call name (repr args) :: Sleep d :: evs). split.
    + change (seq j (Datatypes.S (Datatypes.S m)))
        with (j :: seq (Datatypes.S j) (Datatypes.S m)).
      cbn [map retry_loop]. unfold try_except at 1.
      rewrite (external_no_deadline _ _ _ _ _ _ _ _ Hd Hs), Hre.
      replace (Z.of_nat j =? max_attempts cfg - 1) with false
        by (symmetry; apply Z.eqb_neq; lia).
      cbn [negb]. fold w1. unfold bind at 1. rewrite Hdelay.
      unfold bind at 1.
      rewrite asyncio_sleep_no_deadline by (now rewrite Hd2).
      fold w3. exact Hrun.
    + split.
      * rewrite Htr. unfold w3. wsimpl. rewrite Ht2. unfold w1. wsimpl.
        now rewrite <- !app_assoc.
      * split; simpl; congruence.
Qed.

(** X3.  An operation that fails with a retryable error k times and then
    answers, retried with max_attempts > k under a configuration whose
    delays for the attempts 0 .. k - 1 are computed and are finite floats
    (and no deadline pending), is called k + 1 times with k sleeps, and
    [retry_async] returns its answer. *)
Theorem retry_async_eventual_success (cfg : RetryConfig) (w : world S) :
  Z.of_nat (left (ext w)) < max_attempts cfg ->
  deadline w = None ->
  finite_delays cfg (Z.of_nat (left (ext w))) ->
  exists w' evs,
    retry_async (external name repr svc) args (Some cfg) name w = (Return v, w')
    /\ trace w' = (trace w ++ evs)%list
    /\ count_calls evs = Datatypes.S (left (ext w))
    /\ count_sleeps evs = left (ext w).
Proof.
  intros HN Hd Hfin. unfold retry_async, py_range.
  apply retry_loop_countdown; [reflexivity | exact Hd | lia | lia | exact Hfin].
Qed.

End EventualSuccess.

Lemma on_grid_fix (n g e : Z) (x : Q) :
  (x == inject_Z n * 2 ^ g)%Q -> e <= g -> (on_grid x e == x)%Q.
Proof.
  intros Hx He. unfold on_grid.
  assert (Hg : (2 ^ g == inject_Z (2 ^ (g - e)) * 2 ^ e)%Q).
  { rewrite <- two_pow_Z by lia. rewrite <- two_pow_add.
    apply Qpower_comp; [reflexivity | lia]. }
  pose proof (two_pow_pos e) as Hp.
  assert (Hd : (x / 2 ^ e == inject_Z (n * 2 ^ (g - e)))%Q).
  { rewrite inject_Z_mult, Hx, Hg. field. lra. }
  rewrite (round_half_even_comp _ _ Hd), round_half_even_Z.
  rewrite inject_Z_mult, Hx, Hg. ring.
Qed.

Lemma Qlog2_lt (x : Q) (k : Z) : (0 < x)%Q -> (x < 2 ^ k)%Q -> Qlog2 x < k.
Proof.
  intros H0 Hk. destruct (Qlog2_spec x H0) as [Hl _].
  apply two_pow_lt_inv. lra.
Qed.

Lemma round_finite_canonical (q : Q) : Qred (round_finite q) = round_finite q.
Proof.
  unfold round_finite. destruct (Qeq_bool q 0); [reflexivity|].
  apply Qred_complete, Qred_correct.
Qed.

(** A float is its own rounding. *)
Lemma round_finite_idem (q : Q) :
  (0 <= q)%Q -> round_finite (round_finite q) = round_finite q.
Proof.
  intros Hq0.
  rewrite <- (round_finite_canonical (round_finite q)).
  rewrite <- (round_finite_canonical q) at 2.
  apply Qred_complete.
  destruct (Qeq_dec q 0) as [H0|H0].
  { rewrite (round_finite_0 q H0). reflexivity. }
  assert (Hq : (0 < q)%Q)
    by (destruct (Qlt_le_dec 0 q); [auto | exfalso; apply H0; lra]).
  pose proof (round_finite_eq q H0) as Hr.
  unfold ulp_exponent in Hr. rewrite (Qabs_nonneg_eq q Hq0) in Hr.
  destruct (Qlog2_spec q Hq) as [_ Hqu].
  set (E := Qlog2 q) in *. set (e := Z.max (E - 52) (-1074)) in *.
  unfold on_grid in Hr. set (m := round_half_even (q / 2 ^ e)) in *.
  pose proof (two_pow_pos e) as Hpe.
  assert (Hm0 : 0 <= m).
  { unfold m. rewrite <- (round_half_even_Z 0). apply round_half_even_mono.
    change (inject_Z 0) with 0%Q. apply Qle_shift_div_l; [exact Hpe | lra]. }
  assert (Hm53 : m <= 2 ^ 53).
  { unfold m. rewrite <- (round_half_even_Z (2 ^ 53)).
    apply round_half_even_mono. rewrite <- two_pow_Z by lia.
    apply Qle_shift_div_r; [exact Hpe|].
    rewrite <- two_pow_add.
    apply Qle_trans with (2 ^ (E + 1))%Q; [lra|]. apply two_pow_le. lia. }
  set (r := round_finite q) in *.
  destruct (Z.eq_dec m 0) as [Hz|Hnz].
  { assert (Hr0 : (r == 0)%Q) by (rewrite Hr, Hz; ring).
    rewrite (round_finite_0 r Hr0). symmetry. exact Hr0. }
  assert (Hmq : (1 <= inject_Z m)%Q) by (rewrite <- (Zle_Qle 1); lia).
  assert (Hrpos : (0 < r)%Q) by (rewrite Hr; nra).
  rewrite (round_finite_eq r) by (intros Ez; lra).
  unfold ulp_exponent. rewrite (Qabs_nonneg_eq r) by lra.
  destruct (Z.eq_dec m (2 ^ 53)) as [Htop|Hlow].
  - assert (Hr' : (r == inject_Z (2 ^ 52) * 2 ^ (e + 1))%Q).
    { rewrite Hr, Htop, two_pow_add, <- !two_pow_Z by lia.
      change (2 ^ 53)%Q with (2 ^ 52 * 2 ^ 1)%Q. ring. }
    apply (on_grid_fix (2 ^ 52) (e + 1)); [exact Hr'|].
    assert (Hlt : Qlog2 r < 54 + e).
    { apply Qlog2_lt; [exact Hrpos|].
      rewrite Hr', <- two_pow_Z, <- two_pow_add by lia.
      apply Qpower_lt_compat_l; [lia | reflexivity]. }
    lia.
  - apply (on_grid_fix m e); [exact Hr|].
    assert (Hlt : Qlog2 r < 53 + e).
    { apply Qlog2_lt; [exact Hrpos|].
      rewrite Hr, two_pow_add.
      assert (Hm' : (inject_Z m < 2 ^ 53)%Q).
      { rewrite two_pow_Z by lia. rewrite <- Zlt_Qlt. lia. }
      nra. }
    lia.
Qed.

(** X4.  With jitter enabled, [calculate_delay] consumes one draw of the
    generator and adds to the capped delay [d] (a float that is not
    negative) a jitter between 0 and [d * 0.25]: what it returns lies
    between [d] and [d + d * 0.25], these two computed in floats. *)
Theorem calculate_delay_with_jitter (cfg : RetryConfig) (a : Z) (w : world S)
    (power : float) (d : Q) (k : Z) (s' : S) :
  jitter cfg = true ->
  float_pow (exponential_base cfg) a = inr power ->
  py_min (fmul (base_delay cfg) power) (max_delay cfg) = Num d ->
  (0 <= d)%Q -> (d < 2 ^ 1024)%Q ->
  random_oracle (ext w) = (k, s') ->
  exists d',
    calculate_delay cfg a w = (Return d', set_ext s' w)
    /\ fle (fround d) d' = true
    /\ fle d' (fadd (Num d) (fmul (Num d) (Num (1 # 4)))) = true.
Proof.
  intros Hj Hpow Hmin Hd0 Hd Hk.
  unfold calculate_delay, bind, raise_or_ret. rewrite Hpow. unfold ret at 1.
  rewrite Hj, Hmin.
  destruct (random_random_unit w) as (r & s'' & Hr & Hs & Hr0 & Hr1).
  rewrite Hk in Hs. injection Hs as <-.
  rewrite Hr. unfold ret. eexists. split; [reflexivity|].
  cbn [fmul].
  assert (E0 : round_finite (2 ^ 1022) = (2 ^ 1022)%Q) by (vm_compute; reflexivity).
  assert (L0 : (2 ^ 1022 < 2 ^ 1024)%Q) by (vm_compute; reflexivity).
  assert (L1 : (2 ^ 1024 * (1 # 4) == 2 ^ 1022)%Q) by (vm_compute; reflexivity).
  pose proof (fround_nonneg (d * (1 # 4)) ltac:(lra)) as Hc.
  assert (Hcb : (round_finite (d * (1 # 4)) <= 2 ^ 1022)%Q).
  { rewrite <- E0. apply round_finite_mono; lra. }
  destruct (Qle_bool (2 ^ 1024) (round_finite (d * (1 # 4)))) eqn:Hov.
  { apply Qle_bool_iff in Hov. exfalso. lra. }
  rewrite Hc. set (c := round_finite (d * (1 # 4))) in *.
  assert (Hc0 : (0 <= c)%Q) by (apply round_finite_nonneg; lra).
  cbn [fmul fadd].
  assert (Hj0 : (0 <= c * r)%Q) by nra.
  assert (Hj1 : (c * r <= c)%Q) by nra.
  destruct (fround_bounded (c * r) c Hj0 Hj1) as (j & -> & Hjl & Hjc).
  { unfold c. rewrite round_finite_idem by lra. fold c. lra. }
  unfold c in Hjc. rewrite round_finite_idem in Hjc by lra. fold c in Hjc.
  cbn [fadd]. split; apply fround_mono; lra.
Qed.


(** A negative number no lower than -2^63 is rounded to a float in the
    same range. *)
Lemma round_finite_negative (q : Q) :
  (q < 0)%Q -> (- 2 ^ 63 <= q)%Q ->
  (- 2 ^ 63 <= round_finite q)%Q /\ (round_finite q <= 0)%Q.
Proof.
  intros Hneg Hlow.
  assert (H0 : ~ (q == 0)%Q) by (intros E; rewrite E in Hneg; lra).
  rewrite (round_finite_eq q H0).
  assert (He : ulp_exponent q <= 63).
  { unfold ulp_exponent.
    assert (Habs : (0 < Qabs q)%Q).
    { destruct (Qabs_Qle_condition q 0) as [_ Hc].
      destruct (Qlt_le_dec 0 (Qabs q)) as [Hp|Hn]; [exact Hp|].
      exfalso. apply Qabs_Qle_condition in Hn. lra. }
    assert (Hup : (Qabs q < 2 ^ 64)%Q).
    { apply Qle_lt_trans with (2 ^ 63)%Q.
      - apply Qabs_Qle_condition. split; lra.
      - vm_compute. reflexivity. }
    pose proof (Qlog2_lt (Qabs q) 64 Habs Hup). lia. }
  assert (F1 : (on_grid (- 2 ^ 63) (ulp_exponent q) == - 2 ^ 63)%Q).
  { apply (on_grid_fix (-1) 63); [vm_compute; reflexivity | exact He]. }
  assert (F2 : (on_grid 0 (ulp_exponent q) == 0)%Q).
  { apply (on_grid_fix 0 (ulp_exponent q)); [|lia].
    change (inject_Z 0) with 0%Q. ring. }
  pose proof (on_grid_mono _ _ (ulp_exponent q) Hlow) as M1.
  assert (Hq0 : (q <= 0)%Q) by lra.
  pose proof (on_grid_mono _ _ (ulp_exponent q) Hq0) as M2.
  rewrite F1 in M1. rewrite F2 in M2. split; assumption.
Qed.

(** X5.  A delay that is negative stops [retry_sync] at its first retry:
    [time.sleep] refuses it, and the ValueError it raises replaces the
    error of the operation, which has been called once.  ([asyncio.sleep]
    takes a negative delay for none, so [retry_async] goes on.) *)
Theorem retry_sync_negative_delay {A R} (func : A -> M S R) (args : A)
    (cfg : RetryConfig) (name : string) (w w1 w2 : world S) (e : exn) (d : Q) :
  2 <= max_attempts cfg ->
  func args w = (Raise e, w1) ->
  should_retry e = true ->
  calculate_delay cfg 0 w1 = (Return (Num d), w2) ->
  (d < 0)%Q ->
  (Qabs (d * 1000000000) < 2 ^ 63)%Q ->
  retry_sync func args (Some cfg) name w
  = (Raise (Exc ValueError "sleep length must be non-negative"), w2).
Proof.
  intros HN Hf Hre Hdelay Hneg Hrange. unfold retry_sync, py_range.
  destruct (Z.to_nat (max_attempts cfg)) as [|m] eqn:Hm; [lia|].
  cbn [seq map retry_loop_sync]. unfold try_except. rewrite Hf, Hre.
  cbn [negb].
  replace (Z.of_nat 0 =? max_attempts cfg - 1) with false
    by (symmetry; apply Z.eqb_neq; lia).
  unfold bind at 1. change (Z.of_nat 0) with 0. rewrite Hdelay.
  unfold bind, time_sleep. cbn [fmul].
  assert (Hlow : (- 2 ^ 63 <= d * 1000000000)%Q).
  { apply Qlt_le_weak in Hrange. apply Qabs_Qle_condition in Hrange.
    exact (proj1 Hrange). }
  assert (Hprod : (d * 1000000000 < 0)%Q) by lra.
  destruct (round_finite_negative _ Hprod Hlow) as [Hr1 Hr2].
  assert (Habs : (Qabs (round_finite (d * 1000000000)) <= 2 ^ 63)%Q).
  { apply Qabs_Qle_condition. split; [exact Hr1|].
    apply Qle_trans with 0%Q; [exact Hr2 | vm_compute; discriminate]. }
  unfold fround.
  replace (Qle_bool (2 ^ 1024) (Qabs (round_finite (d * 1000000000))))
    with false.
  2:{ symmetry. destruct (Qle_bool _ _) eqn:E; [|reflexivity].
      apply Qle_bool_iff in E. exfalso.
      assert (H63 : (2 ^ 63 < 2 ^ 1024)%Q) by (vm_compute; reflexivity).
      lra. }
  unfold Qlt_bool.
  replace (Qle_bool (Qabs (round_finite (d * 1000000000))) (2 ^ 63)) with true
    by (symmetry; apply Qle_bool_iff; exact Habs).
  replace (Qle_bool 0 d) with false; [reflexivity|].
  symmetry. destruct (Qle_bool 0 d) eqn:E; [|reflexivity].
  apply Qle_bool_iff in E. exfalso. lra.
Qed.

(* --------------------------------------------------------------------- *)
(** *** execute_fallback_chain and the chains of fallback.py *)

Lemma fallback_loop_result {A R} (args : A) (fs : list ((A -> M S R) * string)) :
  forall (level : Z) (w : world S),
    match fallback_loop fs level args w with
    | (Return (Some r), _) =>
        success r = true /\ error r = None
        /\ (exists n, provider_used r = Some n)
        /\ level <= fallback_level r < level + Z.of_nat (length fs)
    | (Return None, _) => True
    | (Raise _, _) => False
    | (Cancelled, _) => True
    end.
Proof.
  induction fs as [|[f name] rest IH]; intros level w.
  - exact I.
  - cbn [fallback_loop]. unfold try_except, bind.
    destruct (f args w) as [[v|e|] w1].
    + unfold ret. cbn [success result error provider_used fallback_level length].
      repeat split; eauto; lia.
    + specialize (IH (level + 1) w1).
      destruct (fallback_loop rest (level + 1) args w1) as [[[r|]|e'|] w2]; auto.
      destruct IH as (H1 & H2 & H3 & H4).
      repeat split; auto; cbn [length]; lia.
    + exact I.
Qed.

(** X6.  [execute_fallback_chain] never raises; and the FallbackResult it
    returns is coherent: success exactly when no error is kept, exactly
    when a provider is named; without success there is no result;
    fallback_level is -1 exactly when success is false, and otherwise a
    position between 0 and the length of the list. *)
Theorem execute_fallback_chain_result {A R} (service_type : ServiceType)
    (primary_func : A -> M S R) (primary_name : string) (args : A)
    (fallback_funcs : option (list ((A -> M S R) * string))) (w : world S) :
  match fst (execute_fallback_chain service_type primary_func primary_name
               args fallback_funcs w) with
  | Return r =>
      (success r = true <-> error r = None)
      /\ (success r = true <-> exists n, provider_used r = Some n)
      /\ (success r = false -> result r = None)
      /\ (fallback_level r = -1 <-> success r = false)
      /\ -1 <= fallback_level r <= Z.of_nat (length (candidates fallback_funcs))
  | Raise _ => False
  | Cancelled => True
  end.
Proof.
  destruct (primary_func args w) as [[v|e|] w1] eqn:Hp.
  - unfold execute_fallback_chain, try_except, bind. rewrite Hp.
    cbn. repeat split; eauto; try discriminate; lia.
  - rewrite (execute_fallback_chain_primary_fails _ _ _ _ _ _ _ _ Hp).
    pose proof (fallback_loop_result args (candidates fallback_funcs) 1 w1) as H.
    destruct (fallback_loop (candidates fallback_funcs) 1 args w1)
      as [[[r|]|e'|] w2]; cbn [fst]; auto.
    + destruct H as (H1 & H2 & H3 & H4).
      repeat split; auto; try lia; try congruence.
    + cbn. repeat split; try discriminate; try lia.
      intros [n Hn]. discriminate Hn.
  - unfold execute_fallback_chain, try_except, bind. rewrite Hp. exact I.
Qed.

(** X7.  With the STT chain and with the AI chain that fallback.py
    defines, [execute_fallback_chain] never reports failure: their one
    candidate returns a fixed message whatever happened, so the result has
    success = True, from the primary (level 0) or from that candidate
    (level 1, with its message). *)
Theorem shipped_chains_always_succeed {A}
    (primary_func : A -> M S string) (primary_name : string) (args : A)
    (w : world S) :
  match fst (execute_fallback_chain STT primary_func primary_name args
               (Some STT_FALLBACK_CHAIN) w) with
  | Return r =>
      success r = true
      /\ (fallback_level r = 0
          \/ fallback_level r = 1
             /\ result r
                = Some "[Speech recognition unavailable - please type your message]")
  | Raise _ => False
  | Cancelled => True
  end
  /\ match fst (execute_fallback_chain AI primary_func primary_name args
                  (Some AI_FALLBACK_CHAIN) w) with
     | Return r =>
         success r = true
         /\ (fallback_level r = 0
             \/ fallback_level r = 1
                /\ result r
                   = Some "I apologize, but I'm experiencing technical difficulties. Please try again in a moment.")
     | Raise _ => False
     | Cancelled => True
     end.
Proof.
  unfold execute_fallback_chain, try_except, bind.
  destruct (primary_func args w) as [[v|e|] w1]; cbn; auto.
Qed.

(* --------------------------------------------------------------------- *)
(** *** iter_bytes *)

Lemma substring_split (s : string) :
  forall a b d : nat,
    String.substring a (b + d) s
    = String.substring a b s ++ String.substring (a + b) d s.
Proof.
  induction s as [|c s IH]; intros a b d.
  - destruct a, b, d; reflexivity.
  - destruct a as [|a].
    + destruct b as [|b].
      * reflexivity.
      * cbn [Nat.add String.substring]. rewrite append_cons. f_equal.
        apply (IH 0%nat b d).
    + cbn [Nat.add String.substring]. apply IH.
Qed.

Lemma substring_none (s : string) (a : nat) : String.substring a 0 s = "".
Proof.
  revert a. induction s as [|c s IH]; intros [|a]; simpl; auto.
Qed.

Lemma substring_whole (s : string) (m : nat) :
  (String.length s <= m)%nat -> String.substring 0 m s = s.
Proof.
  revert m. induction s as [|c s IH]; intros [|m] H; simpl in *;
    try reflexivity; try lia.
  f_equal. apply IH. lia.
Qed.

Lemma length_substring (s : string) :
  forall a b : nat,
    String.length (String.substring a b s) = Nat.min b (String.length s - a).
Proof.
  induction s as [|c s IH]; intros a b.
  - destruct a, b; reflexivity.
  - destruct a as [|a].
    + destruct b as [|b]; [reflexivity|].
      cbn [String.substring String.length]. rewrite (IH 0%nat b).
      rewrite Nat.sub_0_r. simpl. lia.
    + cbn [String.substring String.length]. rewrite IH. reflexivity.
Qed.

Lemma bytes_join_chunks (data : string) (c : nat) :
  forall n k : nat,
    bytes_join (map (fun j => String.substring (j * c) c data) (seq k n))
    = String.substring (k * c) (n * c) data.
Proof.
  induction n as [|n IH]; intros k.
  - cbn [seq map bytes_join fold_right Nat.mul].
    symmetry. apply substring_none.
  - cbn [seq map bytes_join fold_right]. fold (bytes_join
      (map (fun j => String.substring (j * c) c data) (seq (Datatypes.S k) n))).
    rewrite IH. cbn [Nat.mul].
    rewrite (substring_split data (k * c) c (n * c)).
    do 2 f_equal. lia.
Qed.

Lemma iter_bytes_offsets (data : string) (chunk_size : Z) :
  0 < chunk_size ->
  iter_bytes data chunk_size
  = inr (map (fun j => String.substring (j * Z.to_nat chunk_size)
                         (Z.to_nat chunk_size) data)
           (seq 0 (Z.to_nat ((len data + chunk_size - 1) / chunk_size)))).
Proof.
  intros Hc. unfold iter_bytes, py_range3.
  replace (chunk_size =? 0) with false by (symmetry; apply Z.eqb_neq; lia).
  replace (0 <? chunk_size) with true by (symmetry; apply Z.ltb_lt; lia).
  rewrite Z.sub_0_r. f_equal. rewrite map_map. apply map_ext. intros j.
  unfold str_slice. f_equal.
  - rewrite Z.add_0_l, Z2Nat.inj_mul, Nat2Z.id by lia. apply Nat.mul_comm.
  - f_equal. lia.
Qed.

(** X8.  For a positive chunk size, the chunks [iter_bytes] yields, joined
    in order, are the data; each has between 1 and chunk_size bytes; and
    there are ceil(len(data) / chunk_size) of them (none for empty
    data). *)
Theorem iter_bytes_chunks (data : string) (chunk_size : Z) :
  0 < chunk_size ->
  exists chunks,
    iter_bytes data chunk_size = inr chunks
    /\ bytes_join chunks = data
    /\ Forall (fun chunk => 0 < len chunk <= chunk_size) chunks
    /\ Z.of_nat (length chunks) = (len data + chunk_size - 1) / chunk_size.
Proof.
  intros Hc. rewrite (iter_bytes_offsets data chunk_size Hc).
  set (c := Z.to_nat chunk_size).
  set (q := (len data + chunk_size - 1) / chunk_size).
  assert (Hq0 : 0 <= q) by (apply Z.div_pos; unfold len; lia).
  assert (Hdm : len data + chunk_size - 1
                = chunk_size * q + (len data + chunk_size - 1) mod chunk_size)
    by (apply Z_div_mod_eq_full).
  assert (Hmod : 0 <= (len data + chunk_size - 1) mod chunk_size < chunk_size)
    by (apply Z.mod_pos_bound; lia).
  assert (Hcq : Z.of_nat (Z.to_nat q * c) = chunk_size * q).
  { unfold c. rewrite Nat2Z.inj_mul, !Z2Nat.id by lia. lia. }
  eexists. split; [reflexivity|]. split; [|split].
  - rewrite (bytes_join_chunks data c (Z.to_nat q) 0). cbn [Nat.mul].
    apply substring_whole. unfold len in *. lia.
  - apply List.Forall_forall. intros chunk Hin.
    apply in_map_iff in Hin. destruct Hin as (j & <- & Hj).
    apply in_seq in Hj. unfold len. rewrite length_substring.
    assert (Hjc : Z.of_nat (j * c) <= chunk_size * q - chunk_size).
    { unfold c. rewrite Nat2Z.inj_mul, Z2Nat.id by lia.
      assert (Z.of_nat j <= q - 1) by lia. nia. }
    unfold len in *. fold c. lia.
  - now rewrite length_map, length_seq, Z2Nat.id.
Qed.

(** X9.  The other chunk sizes: with chunk_size = 0 the generator ends in
    a ValueError (the step of its range), and with a negative chunk size
    it yields nothing, whatever the data. *)
Theorem iter_bytes_degenerate (data : string) (chunk_size : Z) :
  (chunk_size = 0 ->
   iter_bytes data chunk_size
   = inl (Exc ValueError "range() arg 3 must not be zero"))
  /\ (chunk_size < 0 -> iter_bytes data chunk_size = inr []).
Proof.
  split; intros Hc; unfold iter_bytes, py_range3.
  - subst. reflexivity.
  - replace (chunk_size =? 0) with false by (symmetry; apply Z.eqb_neq; lia).
    replace (0 <? chunk_size) with false by (symmetry; apply Z.ltb_ge; lia).
    replace (Z.to_nat ((0 - len data - chunk_size - 1) / - chunk_size))
      with 0%nat; [reflexivity|].
    assert ((0 - len data - chunk_size - 1) / - chunk_size < 1).
    { apply Z.div_lt_upper_bound; unfold len; lia. }
    lia.
Qed.

(* --------------------------------------------------------------------- *)
(** *** transcribe: the temporary files *)

(** X10.  When ffmpeg converts the upload and the endpoint answers the
    first call, [transcribe] returns the endpoint's text after that one
    call, and /tmp is as it was before: both temporary files are gone. *)
Theorem transcribe_success
    (audio : string) (w : world S) (u1 u2 : string) (s1 s2 s3 s4 : S)
    (seconds seconds' : Q) (out text : string) :
  let temp_filepath := "/tmp/" ++ u1 ++ ".wav" in
  let converted_filepath := "/tmp/converted-" ++ u2 ++ ".wav" in
  deadline w = None ->
  uuid4_oracle (ext w) = (u1, s1) ->
  write_oracle temp_filepath audio s1 = None ->
  uuid4_oracle s1 = (u2, s2) ->
  ffmpeg_oracle (Some audio) s2 = (seconds, Converted out, s3) ->
  client_oracle s3 = None ->
  whisper out s3 = (seconds', inr text, s4) ->
  temp_filepath <> converted_filepath ->
  files w !! temp_filepath = None ->
  files w !! converted_filepath = None ->
  exists w',
    transcribe audio w = (Return (Some text), w')
    /\ files w' = files w
    /\ trace w' = (trace w ++ [Call "client.audio.transcriptions.create" out])%list.
Proof.
  intros temp conv Hd Hu1 Hwr Hu2 Hff Hcl Hwh Hne Hft Hfc.
  unfold transcribe, transcribe_with.
  unfold bind at 1. unfold uuid4 at 1. rewrite Hu1. cbv zeta. fold temp.
  unfold write_file. wsimpl. rewrite Hwr.
  unfold bind at 1. unfold uuid4 at 1. wsimpl. rewrite Hu2.
  fold conv. unfold try_finally.
  unfold bind at 1. unfold ffmpeg_run at 1.
  wsimpl. rewrite lookup_insert_eq, Hff.
  unfold bind at 1.
  unfold execute_fallback_chain, try_except at 1, bind at 1.
  unfold _transcribe_with_retry at 1, retry_async.
  cbn [max_attempts RETRY_CONFIG_STT]. unfold py_range.
  change (Z.to_nat 3) with 3%nat. cbn [seq map retry_loop].
  unfold try_except at 1. unfold _transcribe_internal at 1.
  unfold bind at 1. unfold AsyncOpenAI at 1. wsimpl. rewrite Hcl.
  unfold bind at 1. unfold open_rb at 1. wsimpl. rewrite lookup_insert_eq.
  unfold external at 1. wsimpl. rewrite Hwh.
  rewrite expires_no_deadline by exact Hd.
  unfold ret at 1. cbn [success negb result]. unfold ret at 1.
  unfold bind at 1. unfold os_remove at 1. wsimpl.
  rewrite lookup_insert_ne by congruence. rewrite lookup_insert_eq.
  unfold os_remove. wsimpl.
  rewrite lookup_delete_ne by exact Hne. rewrite lookup_insert_eq.
  eexists. split; [reflexivity|]. wsimpl. split; [|reflexivity].
  now apply tmp_files_restored.
Qed.

(** X11.  When ffmpeg fails after it has created its output file,
    [transcribe] raises ffmpeg's error, no provider is called, and both
    temporary files are gone. *)
Theorem transcribe_ffmpeg_partial_output
    (chain : list ((string -> M S string) * string)) (audio : string)
    (w : world S) (u1 u2 : string) (s1 s2 s3 : S) (seconds : Q)
    (partial : string) (e : exn) :
  let temp_filepath := "/tmp/" ++ u1 ++ ".wav" in
  let converted_filepath := "/tmp/converted-" ++ u2 ++ ".wav" in
  uuid4_oracle (ext w) = (u1, s1) ->
  write_oracle temp_filepath audio s1 = None ->
  uuid4_oracle s1 = (u2, s2) ->
  ffmpeg_oracle (Some audio) s2 = (seconds, FailedPartialOutput partial e, s3) ->
  temp_filepath <> converted_filepath ->
  files w !! temp_filepath = None ->
  files w !! converted_filepath = None ->
  exists w',
    transcribe_with chain audio w = (Raise e, w')
    /\ files w' = files w
    /\ trace w' = trace w.
Proof.
  intros temp conv Hu1 Hwr Hu2 Hff Hne Hft Hfc.
  unfold transcribe_with.
  unfold bind at 1. unfold uuid4 at 1. rewrite Hu1. cbv zeta. fold temp.
  unfold write_file. wsimpl. rewrite Hwr.
  unfold bind at 1. unfold uuid4 at 1. wsimpl. rewrite Hu2.
  fold conv. unfold try_finally.
  unfold bind at 1. unfold ffmpeg_run at 1.
  wsimpl. rewrite lookup_insert_eq, Hff.
  unfold bind at 1. unfold os_remove at 1. wsimpl.
  rewrite lookup_insert_ne by congruence. rewrite lookup_insert_eq.
  unfold os_remove. wsimpl.
  rewrite lookup_delete_ne by exact Hne. rewrite lookup_insert_eq.
  eexists. split; [reflexivity|]. wsimpl. split; [|reflexivity].
  now apply tmp_files_restored.
Qed.

(** X12.  When the deadline of an enclosing [wait_for] strikes during the
    first call of the endpoint, [transcribe] is cancelled: no retry, no
    fallback candidate, no placeholder; its [finally] clause still runs,
    and both temporary files are gone. *)
Theorem transcribe_cancelled
    (chain : list ((string -> M S string) * string)) (audio : string)
    (w : world S) (u1 u2 : string) (s1 s2 s3 s4 : S)
    (d seconds seconds' : Q) (out : string) (answer : exn + string) :
  let temp_filepath := "/tmp/" ++ u1 ++ ".wav" in
  let converted_filepath := "/tmp/converted-" ++ u2 ++ ".wav" in
  deadline w = Some d ->
  uuid4_oracle (ext w) = (u1, s1) ->
  write_oracle temp_filepath audio s1 = None ->
  uuid4_oracle s1 = (u2, s2) ->
  ffmpeg_oracle (Some audio) s2 = (seconds, Converted out, s3) ->
  client_oracle s3 = None ->
  whisper out s3 = (seconds', answer, s4) ->
  (d < now w + Qmax 0 seconds + Qmax 0 seconds')%Q ->
  temp_filepath <> converted_filepath ->
  files w !! temp_filepath = None ->
  files w !! converted_filepath = None ->
  exists w',
    transcribe_with chain audio w = (Cancelled, w')
    /\ files w' = files w
    /\ trace w' = (trace w ++ [Call "client.audio.transcriptions.create" out])%list.
Proof.
  intros temp conv Hd Hu1 Hwr Hu2 Hff Hcl Hwh Hlate Hne Hft Hfc.
  unfold transcribe_with.
  unfold bind at 1. unfold uuid4 at 1. rewrite Hu1. cbv zeta. fold temp.
  unfold write_file. wsimpl. rewrite Hwr.
  unfold bind at 1. unfold uuid4 at 1. wsimpl. rewrite Hu2.
  fold conv. unfold try_finally.
  unfold bind at 1. unfold ffmpeg_run at 1.
  wsimpl. rewrite lookup_insert_eq, Hff.
  unfold bind at 1.
  unfold execute_fallback_chain, try_except at 1, bind at 1.
  unfold _transcribe_with_retry at 1, retry_async.
  cbn [max_attempts RETRY_CONFIG_STT]. unfold py_range.
  change (Z.to_nat 3) with 3%nat. cbn [seq map retry_loop].
  unfold try_except at 1. unfold _transcribe_internal at 1.
  unfold bind at 1. unfold AsyncOpenAI at 1. wsimpl. rewrite Hcl.
  unfold bind at 1. unfold open_rb at 1. wsimpl. rewrite lookup_insert_eq.
  unfold external at 1. wsimpl. rewrite Hwh.
  unfold expires. wsimpl. rewrite Hd.
  destruct (Qle_bool (now w + Qmax 0 seconds + Qmax 0 seconds') d) eqn:Hle.
  { apply Qle_bool_iff in Hle. exfalso. exact (Qlt_not_le _ _ Hlate Hle). }
  cbn [negb]. unfold strike. wsimpl. rewrite Hd. wsimpl.
  unfold bind at 1. unfold os_remove at 1. wsimpl.
  rewrite lookup_insert_ne by congruence. rewrite lookup_insert_eq.
  unfold os_remove. wsimpl.
  rewrite lookup_delete_ne by exact Hne. rewrite lookup_insert_eq.
  eexists. split; [reflexivity|]. wsimpl. split; [|reflexivity].
  now apply tmp_files_restored.
Qed.

(* --------------------------------------------------------------------- *)
(** *** unified_inference: rejections, stage failures, the response *)

(** X13.  A request that STEP 0 does not accept (no audio content type, an
    empty payload, or one over MAX_AUDIO_SIZE) is answered with
    HTTPException 400 or 413 in the world as it was: no stage function
    has run. *)
Theorem unified_inference_rejects_early
    (stt : string -> M S (option string))
    (ai : string -> option string -> M S string)
    (tts : string -> M S (list string)) (req : request) (w : world S) :
  ~ accepted req ->
  exists status detail,
    unified_inference stt ai tts req w = (Raise (HTTPExc status detail), w)
    /\ (status = 400 \/ status = 413).
Proof.
  intros Hno. unfold unified_inference.
  destruct (content_type req) as [ct|] eqn:Hct.
  2:{ exists 400, "Invalid audio file type". split; [reflexivity | now left]. }
  destruct (str_in "audio" ct) eqn:Haudio.
  2:{ rewrite orb_true_r.
      exists 400, "Invalid audio file type". split; [reflexivity | now left]. }
  rewrite (str_in_truthy "audio" ct ltac:(discriminate) Haudio). cbn [negb orb].
  destruct (len (audio_bytes req) =? 0) eqn:Hzero.
  { exists 400, "Empty audio file". split; [reflexivity | now left]. }
  destruct (len (audio_bytes req) >? MAX_AUDIO_SIZE) eqn:Hbig.
  { do 2 eexists. split; [reflexivity | now right]. }
  exfalso. apply Hno. split.
  - now exists ct.
  - apply Z.eqb_neq in Hzero. rewrite Z.gtb_ltb in Hbig.
    apply Z.ltb_ge in Hbig. unfold len in *. lia.
Qed.

(** X14.  When the STT stage raises an exception of its own, the request
    ends in HTTPException 500 whose detail is [Speech recognition failed: ]
    followed by the first 100 characters of the exception's text; an
    [asyncio.TimeoutError] raised by the stage itself (the builtin
    TimeoutError: the two are one class) ends in 504 like a deadline.
    Neither later stage runs. *)
Theorem stt_stage_error
    (stt : string -> M S (option string))
    (ai : string -> option string -> M S string)
    (tts : string -> M S (list string))
    (req : request) (w w1 : world S) (e : exn) :
  accepted req ->
  wait_for (stt (audio_bytes req)) STT_TIMEOUT w = (Raise e, w1) ->
  unified_inference stt ai tts req w
  = (Raise (if isinstance e [AsyncioTimeoutError]
            then HTTPExc 504 "Speech recognition timed out"
            else HTTPExc 500
                   ("Speech recognition failed: " ++ str_take 100 (py_str e))),
     w1).
Proof.
  intros Hacc Hstt. pass_step0 Hacc.
  unfold try_except at 1. unfold bind at 1. unfold time_time at 1.
  unfold bind at 1. unfold try_except at 1. unfold bind at 1.
  rewrite Hstt. unfold stage_handler.
  destruct (isinstance e [AsyncioTimeoutError]); reflexivity.
Qed.

(** X15.  A transcript that is empty or all whitespace ends the request
    in HTTPException 400 in the world the STT stage left: the AI stage
    does not run. *)
Theorem blank_transcript_rejected
    (stt : string -> M S (option string))
    (ai : string -> option string -> M S string)
    (tts : string -> M S (list string))
    (req : request) (w w1 : world S) (text : string) :
  accepted req ->
  wait_for (stt (audio_bytes req)) STT_TIMEOUT w = (Return (Some text), w1) ->
  py_blank text = true ->
  unified_inference stt ai tts req w
  = (Raise (HTTPExc 400 "Could not transcribe audio - please speak clearly"), w1).
Proof.
  intros Hacc Hstt Hb. pass_step0 Hacc.
  unfold try_except at 1. unfold bind at 1. unfold time_time at 1.
  unfold bind at 1. unfold try_except at 1. unfold bind at 1.
  rewrite Hstt. unfold bind at 1. unfold time_time at 1. unfold ret at 1.
  rewrite Hb. reflexivity.
Qed.

(** The pipeline up to the AI stage. *)
Lemma unified_inference_to_ai
    (stt : string -> M S (option string))
    (ai : string -> option string -> M S string)
    (tts : string -> M S (list string))
    (req : request) (w w1 w2 : world S) (text : string)
    (messages : list json) (o : outcome string) :
  accepted req ->
  wait_for (stt (audio_bytes req)) STT_TIMEOUT w = (Return (Some text), w1) ->
  py_blank text = false ->
  parse_conversation (conversation req) w1 = (Return messages, w1) ->
  wait_for (ai (prompt_of text) (history_of messages)) AI_TIMEOUT w1 = (o, w2) ->
  unified_inference stt ai tts req w
  = match o with
    | Return reply =>
        if py_blank reply
        then (Raise (HTTPExc 500 "AI returned empty response"), w2)
        else
          let reply' :=
            if len reply >? 5000 then str_take 5000 reply ++ "..." else reply in
          match TTSRequest reply' w2 with
          | (Return tts_text, w2') =>
              match wait_for (tts tts_text) TTS_TIMEOUT w2' with
              | (Return body, w3) =>
                  (Return
                     (mkResponse body "audio/mpeg" (now w1 - now w)%Q
                        (now w2 - now w1)%Q
                        (b64encode_utf8 (str_take 500 (prompt_of text)))
                        (str_take 2000 (b64encode_utf8 reply'))
                        (b64_json_dumps
                           (let ms :=
                              (messages ++ [json_turn "user" (prompt_of text);
                                            json_turn "assistant" reply'])%list in
                            let ms :=
                              if (MAX_CONVERSATION_LENGTH <? length ms)%nat
                              then last_n MAX_CONVERSATION_LENGTH ms else ms in
                            if (2 <=? length ms)%nat then last_n 2 ms else ms))),
                   w3)
              | (Raise e, w3) =>
                  (Raise (if isinstance e [AsyncioTimeoutError]
                          then HTTPExc 504 "Text-to-speech timed out"
                          else HTTPExc 500
                                 ("Text-to-speech failed: "
                                  ++ str_take 100 (py_str e))), w3)
              | (Cancelled, w3) => (Cancelled, w3)
              end
          | (Raise e, w2') =>
              (Raise (if isinstance e [AsyncioTimeoutError]
                      then HTTPExc 504 "Text-to-speech timed out"
                      else HTTPExc 500
                             ("Text-to-speech failed: "
                              ++ str_take 100 (py_str e))), w2')
          | (Cancelled, w2') => (Cancelled, w2')
          end
    | Raise e =>
        (Raise (if isinstance e [AsyncioTimeoutError]
                then HTTPExc 504 "AI response timed out"
                else HTTPExc 500
                       ("AI processing failed: " ++ str_take 100 (py_str e))),
         w2)
    | Cancelled => (Cancelled, w2)
    end.
Proof.
  intros Hacc Hstt Ht Hparse Hai. pass_step0 Hacc.
  unfold try_except at 1. unfold bind at 1. unfold time_time at 1.
  unfold bind at 1. unfold try_except at 1. unfold bind at 1.
  rewrite Hstt. unfold bind at 1. unfold time_time at 1. unfold ret at 1.
  rewrite Ht.
  unfold bind at 1. unfold time_time at 1.
  unfold bind at 1. unfold try_except at 1. unfold bind at 1.
  rewrite Hparse. unfold bind at 1.
  unfold prompt_of, history_of in Hai. rewrite Hai.
  destruct o as [reply|e|].
  - unfold bind at 1. unfold time_time at 1. unfold ret at 1.
    destruct (py_blank reply); [reflexivity|].
    unfold bind at 1. unfold try_except at 1. unfold bind at 1.
    cbv zeta.
    destruct (TTSRequest _ w2) as [[tts_text|e|] w2'].
    + destruct (wait_for (tts tts_text) TTS_TIMEOUT w2') as [[body|e|] w3].
      * reflexivity.
      * unfold stage_handler.
        destruct (isinstance e [AsyncioTimeoutError]); reflexivity.
      * reflexivity.
    + unfold stage_handler.
      destruct (isinstance e [AsyncioTimeoutError]); reflexivity.
    + reflexivity.
  - unfold stage_handler.
    destruct (isinstance e [AsyncioTimeoutError]); reflexivity.
  - reflexivity.
Qed.

(** X16.  When the AI stage raises, the request ends in HTTPException
    504 for an [asyncio.TimeoutError] (the builtin TimeoutError: the two
    are one class) and otherwise in 500 whose detail is
    [AI processing failed: ] followed by the first 100 characters of the
    exception's text, in the world the AI stage left: the TTS stage does
    not run. *)
Theorem ai_stage_error
    (stt : string -> M S (option string))
    (ai : string -> option string -> M S string)
    (tts : string -> M S (list string))
    (req : request) (w w1 w2 : world S) (text : string)
    (messages : list json) (e : exn) :
  accepted req ->
  wait_for (stt (audio_bytes req)) STT_TIMEOUT w = (Return (Some text), w1) ->
  py_blank text = false ->
  parse_conversation (conversation req) w1 = (Return messages, w1) ->
  wait_for (ai (prompt_of text) (history_of messages)) AI_TIMEOUT w1
  = (Raise e, w2) ->
  unified_inference stt ai tts req w
  = (Raise (if isinstance e [AsyncioTimeoutError]
            then HTTPExc 504 "AI response timed out"
            else HTTPExc 500
                   ("AI processing failed: " ++ str_take 100 (py_str e))),
     w2).
Proof.
  intros Hacc Hstt Ht Hparse Hai.
  now rewrite (unified_inference_to_ai stt ai tts req w w1 w2 text messages
                 (Raise e) Hacc Hstt Ht Hparse Hai).
Qed.

(** X17.  A reply of the AI stage that is empty or all whitespace ends
    the request in HTTPException 500 [AI returned empty response] in the
    world the AI stage left: the TTS stage does not run. *)
Theorem blank_reply_rejected
    (stt : string -> M S (option string))
    (ai : string -> option string -> M S string)
    (tts : string -> M S (list string))
    (req : request) (w w1 w2 : world S) (text reply : string)
    (messages : list json) :
  accepted req ->
  wait_for (stt (audio_bytes req)) STT_TIMEOUT w = (Return (Some text), w1) ->
  py_blank text = false ->
  parse_conversation (conversation req) w1 = (Return messages, w1) ->
  wait_for (ai (prompt_of text) (history_of messages)) AI_TIMEOUT w1
  = (Return reply, w2) ->
  py_blank reply = true ->
  unified_inference stt ai tts req w
  = (Raise (HTTPExc 500 "AI returned empty response"), w2).
Proof.
  intros Hacc Hstt Ht Hparse Hai Hb.
  rewrite (unified_inference_to_ai stt ai tts req w w1 w2 text messages
             (Return reply) Hacc Hstt Ht Hparse Hai).
  now rewrite Hb.
Qed.

Lemma last_n_app_2 {X} (pre : list X) (a b : X) :
  last_n 2 (pre ++ [a; b]) = [a; b].
Proof.
  unfold last_n. rewrite List.length_app. cbn [length].
  replace (length pre + 2 - 2)%nat with (length pre) by lia.
  rewrite List.skipn_app, List.skipn_all, Nat.sub_diag. reflexivity.
Qed.

(** Whatever the history, the conversation of the response is the turn
    just made. *)
Lemma last_turn_is_current {X} (ms : list X) (a b : X) :
  (let ms := (ms ++ [a; b])%list in
   let ms :=
     if (MAX_CONVERSATION_LENGTH <? length ms)%nat
     then last_n MAX_CONVERSATION_LENGTH ms else ms in
   if (2 <=? length ms)%nat then last_n 2 ms else ms) = [a; b].
Proof.
  cbv zeta.
  assert (Hpre : exists pre,
             (if (MAX_CONVERSATION_LENGTH <? length (ms ++ [a; b]))%nat
              then last_n MAX_CONVERSATION_LENGTH (ms ++ [a; b])
              else (ms ++ [a; b])%list) = (pre ++ [a; b])%list).
  { destruct (MAX_CONVERSATION_LENGTH <? length (ms ++ [a; b]))%nat;
      [|now exists ms].
    exists (skipn (length ms - 8) ms).
    unfold last_n, MAX_CONVERSATION_LENGTH.
    rewrite List.length_app. cbn [length].
    replace (length ms + 2 - 10)%nat with (length ms - 8)%nat by lia.
    rewrite List.skipn_app.
    replace (length ms - 8 - length ms)%nat with 0%nat by lia.
    reflexivity. }
  destruct Hpre as [pre ->].
  replace (2 <=? length (pre ++ [a; b]))%nat with true.
  - apply last_n_app_2.
  - symmetry. apply Nat.leb_le. rewrite List.length_app. cbn [length]. lia.
Qed.

(** X18.  When every stage answers (a transcript that is not blank, a
    reply that is not blank and of at most 4096 characters, an audio
    body), the request returns the audio with the stage times, the
    transcript cut to 1000 and then to 500 characters, the encoded reply
    cut to 2000 characters, and a conversation header that holds the
    current turn only: the history the client sent reaches the AI stage
    and is not sent back. *)
Theorem unified_inference_response
    (stt : string -> M S (option string))
    (ai : string -> option string -> M S string)
    (tts : string -> M S (list string))
    (req : request) (w w1 w2 w3 : world S) (text reply : string)
    (messages : list json) (body : list string) :
  accepted req ->
  wait_for (stt (audio_bytes req)) STT_TIMEOUT w = (Return (Some text), w1) ->
  py_blank text = false ->
  parse_conversation (conversation req) w1 = (Return messages, w1) ->
  wait_for (ai (prompt_of text) (history_of messages)) AI_TIMEOUT w1
  = (Return reply, w2) ->
  py_blank reply = false ->
  len reply <= 4096 ->
  wait_for (tts (str_strip reply)) TTS_TIMEOUT w2 = (Return body, w3) ->
  unified_inference stt ai tts req w
  = (Return
       (mkResponse body "audio/mpeg" (now w1 - now w)%Q (now w2 - now w1)%Q
          (b64encode_utf8 (str_take 500 (prompt_of text)))
          (str_take 2000 (b64encode_utf8 reply))
          (b64_json_dumps [json_turn "user" (prompt_of text);
                           json_turn "assistant" reply])),
     w3).
Proof.
  intros Hacc Hstt Ht Hparse Hai Hb Hlen Htts.
  rewrite (unified_inference_to_ai stt ai tts req w w1 w2 text messages
             (Return reply) Hacc Hstt Ht Hparse Hai).
  rewrite Hb.
  replace (len reply >? 5000) with false
    by (symmetry; rewrite Z.gtb_ltb; apply Z.ltb_ge; lia).
  cbv zeta. unfold TTSRequest. rewrite Hb.
  replace (len reply >? 4096) with false
    by (symmetry; rewrite Z.gtb_ltb; apply Z.ltb_ge; lia).
  unfold ret at 1. rewrite Htts.
  now rewrite (last_turn_is_current messages).
Qed.

(** X19.  The history handed to the AI stage has at most
    MAX_CONVERSATION_LENGTH messages, and when it is not empty it is the
    end of the list the header decodes to. *)
Theorem parse_conversation_bounded (conversation : option string) (w : world S) :
  match parse_conversation conversation w with
  | (Return messages, w') =>
      w' = w
      /\ (length messages <= MAX_CONVERSATION_LENGTH)%nat
      /\ (messages <> [] ->
          exists c v l pre,
            conversation = Some c /\ b64_json_loads c = Parsed v
            /\ json_as_list v = Some l /\ l = (pre ++ messages)%list)
  | (Raise e, w') =>
      w' = w /\ exists c, conversation = Some c /\ b64_json_loads c = DecodeRaises e
  | (Cancelled, _) => False
  end.
Proof.
  unfold parse_conversation, MAX_CONVERSATION_LENGTH.
  destruct conversation as [c|]; [|cbn; repeat split; [lia | congruence]].
  destruct (str_truthy c); [|cbn; repeat split; [lia | congruence]].
  destruct (b64_json_loads c) as [|e|v] eqn:Hc.
  - cbn. repeat split; [lia | congruence].
  - cbn. split; [reflexivity|]. now exists c.
  - destruct (json_as_list v) as [l|] eqn:Hl.
    2:{ cbn. repeat split; [lia | congruence]. }
    unfold ret. split; [reflexivity|].
    destruct (10 <? length l)%nat eqn:Hlong.
    + apply Nat.ltb_lt in Hlong. unfold last_n. split.
      * rewrite List.length_skipn. lia.
      * intros _. exists c, v, l, (firstn (length l - 10) l).
        repeat split; try reflexivity; try assumption.
        symmetry. apply List.firstn_skipn.
    + apply Nat.ltb_ge in Hlong. split; [exact Hlong|].
      intros _. exists c, v, l, []. repeat split; try reflexivity; assumption.
Qed.

(* --------------------------------------------------------------------- *)
(** *** routes/tts.py: the validator *)

Lemma length_string_of_list_ascii (l : list ascii) :
  String.length (string_of_list_ascii l) = length l.
Proof. induction l as [|a l IH]; cbn; congruence. Qed.

Lemma length_list_ascii_of_string (s : string) :
  length (list_ascii_of_string s) = String.length s.
Proof. induction s as [|a s IH]; cbn; congruence. Qed.

Lemma length_str_rev (s : string) : String.length (str_rev s) = String.length s.
Proof.
  unfold str_rev.
  now rewrite length_string_of_list_ascii, List.length_rev,
    length_list_ascii_of_string.
Qed.

Lemma length_str_lstrip (s : string) :
  (String.length (str_lstrip s) <= String.length s)%nat.
Proof.
  induction s as [|c s IH]; cbn [str_lstrip]; [lia|].
  destruct (chr_isspace c); cbn [String.length]; lia.
Qed.

Lemma len_str_strip (s : string) : len (str_strip s) <= len s.
Proof.
  unfold len, str_strip. rewrite length_str_rev.
  pose proof (length_str_lstrip (str_rev (str_lstrip s))) as H1.
  rewrite length_str_rev in H1.
  pose proof (length_str_lstrip s). lia.
Qed.

(** X20.  [TTSRequest] never touches the world; the text it lets through
    is the stripped input, is not empty and has at most 4096 characters,
    and what it raises is a ValueError. *)
Theorem TTSRequest_validated (text : string) (w : world S) :
  match TTSRequest text w with
  | (Return v, w') =>
      w' = w /\ v = str_strip text /\ str_truthy v = true
      /\ 0 < len v <= 4096 /\ len text <= 4096
  | (Raise e, w') =>
      w' = w /\ class_of e = ValueError
      /\ (py_blank text = true \/ 4096 < len text)
  | (Cancelled, _) => False
  end.
Proof.
  unfold TTSRequest. destruct (py_blank text) eqn:Hb.
  - cbn. repeat split. now left.
  - destruct (len text >? 4096) eqn:Hl.
    + cbn. repeat split. right. rewrite Z.gtb_ltb in Hl. now apply Z.ltb_lt.
    + rewrite Z.gtb_ltb in Hl. apply Z.ltb_ge in Hl.
      unfold py_blank in Hb. apply orb_false_elim in Hb as [_ Hs].
      apply negb_false_iff in Hs.
      pose proof (len_str_strip text).
      cbn. repeat split; try assumption; try lia.
      unfold len. destruct (str_strip text); [discriminate|].
      cbn [String.length]. lia.
Qed.

(* --------------------------------------------------------------------- *)
(** *** ai.py: the guard of get_completion, and the pipeline's own check *)

Lemma str_lstrip_truthy (s : string) :
  str_truthy (str_lstrip s)
  = negb (forallb chr_isspace (list_ascii_of_string s)).
Proof.
  induction s as [|c s IH]; [reflexivity|].
  cbn [str_lstrip list_ascii_of_string forallb].
  destruct (chr_isspace c); [exact IH | reflexivity].
Qed.

Lemma str_lstrip_isspace (s : string) :
  forallb chr_isspace (list_ascii_of_string (str_lstrip s))
  = forallb chr_isspace (list_ascii_of_string s).
Proof.
  induction s as [|c s IH]; [reflexivity|].
  cbn [str_lstrip]. destruct (chr_isspace c) eqn:Hc; [|reflexivity].
  cbn [list_ascii_of_string forallb]. now rewrite Hc.
Qed.

Lemma forallb_rev {X} (f : X -> bool) (l : list X) :
  forallb f (rev l) = forallb f l.
Proof.
  induction l as [|a l IH]; [reflexivity|].
  cbn [rev forallb]. rewrite List.forallb_app, IH. cbn [forallb].
  rewrite andb_true_r. apply andb_comm.
Qed.

Lemma str_rev_isspace (s : string) :
  forallb chr_isspace (list_ascii_of_string (str_rev s))
  = forallb chr_isspace (list_ascii_of_string s).
Proof.
  unfold str_rev. rewrite list_ascii_of_string_of_list_ascii. apply forallb_rev.
Qed.

Lemma str_truthy_length (s : string) :
  str_truthy s = negb (String.length s =? 0)%nat.
Proof. now destruct s. Qed.

Lemma str_rev_truthy (s : string) : str_truthy (str_rev s) = str_truthy s.
Proof. now rewrite !str_truthy_length, length_str_rev. Qed.

Lemma str_strip_truthy (s : string) :
  str_truthy (str_strip s)
  = negb (forallb chr_isspace (list_ascii_of_string s)).
Proof.
  unfold str_strip.
  now rewrite str_rev_truthy, str_lstrip_truthy, str_rev_isspace,
    str_lstrip_isspace.
Qed.

(** X21.  The check the pipeline and the validator make
    ([not s or not s.strip()]) and the guard of [get_completion]
    ([not s or s.isspace()]) accept and reject the same strings. *)
Theorem py_blank_agrees_with_is_empty (s : string) : py_blank s = _is_empty s.
Proof.
  unfold py_blank, _is_empty, str_isspace. rewrite str_strip_truthy.
  destruct (str_truthy s), (forallb chr_isspace (list_ascii_of_string s));
    reflexivity.
Qed.

(** X22.  A transcript that is not blank but whose first 1000 characters
    are whitespace passes the pipeline's check, is cut to whitespace, and is
    refused by the guard of [get_completion]: the request ends in
    HTTPException 500 (not the 400 of a blank transcript), and nothing of
    [get_completion] after the guard runs. *)
Theorem whitespace_prefix_fails_in_ai_stage
    (stt : string -> M S (option string))
    (tts : string -> M S (list string))
    (req : request) (w w1 : world S) (text : string) :
  accepted req ->
  wait_for (stt (audio_bytes req)) STT_TIMEOUT w = (Return (Some text), w1) ->
  py_blank text = false ->
  1000 < len text ->
  str_isspace (str_take 1000 text) = true ->
  (forall c e, conversation req = Some c -> b64_json_loads c <> DecodeRaises e) ->
  unified_inference stt get_completion tts req w
  = (Raise (HTTPExc 500 "AI processing failed: empty user prompt received"), w1).
Proof.
  intros Hacc Hstt Ht Hlong Hsp Hconv.
  destruct (parse_conversation_pure (conversation req) Hconv) as [messages Hp].
  assert (Hai : wait_for (get_completion (prompt_of text) (history_of messages))
                  AI_TIMEOUT w1
                = (Raise (Exc ValueError "empty user prompt received"), w1)).
  { unfold wait_for, get_completion, prompt_of, _is_empty.
    replace (len text >? 1000) with true
      by (symmetry; rewrite Z.gtb_ltb; now apply Z.ltb_lt).
    rewrite Hsp, orb_true_r. unfold raise. now destruct w1. }
  now rewrite (unified_inference_to_ai stt get_completion tts req w w1 w1 text
                 messages _ Hacc Hstt Ht (Hp w1) Hai).
Qed.

(* --------------------------------------------------------------------- *)
(** *** routes/chat.py: the transcription route *)

(** X23.  With the chain [fallback.py] ships and an endpoint that fails
    every call, the route answers [success], and its transcript is the
    message of the text-only candidate: the 400 for a failed transcription
    is not reached. *)
Theorem transcribe_audio_endpoint_down
    (ct audio : string) (w : world S) (u1 u2 : string) (s1 s2 s3 : S)
    (seconds : Q) (out : string) :
  let temp_filepath := "/tmp/" ++ u1 ++ ".wav" in
  let converted_filepath := "/tmp/converted-" ++ u2 ++ ".wav" in
  String.prefix "audio/" ct = true ->
  deadline w = None ->
  uuid4_oracle (ext w) = (u1, s1) ->
  write_oracle temp_filepath audio s1 = None ->
  uuid4_oracle s1 = (u2, s2) ->
  ffmpeg_oracle (Some audio) s2 = (seconds, Converted out, s3) ->
  temp_filepath <> converted_filepath ->
  (forall a s, exists t e s', whisper a s = (t, inl e, s')) ->
  exists w',
    transcribe_audio true (Some ct) audio w
    = (Return
         (mkTranscription "success"
            "[Speech recognition unavailable - please type your message]"),
       w').
Proof.
  intros temp conv Hct Hd Hu1 Hwr Hu2 Hff Hne Hwh.
  destruct (transcribe_text_only_mode audio w u1 u2 s1 s2 s3 seconds out
              Hd Hu1 Hwr Hu2 Hff Hne Hwh) as (w' & Htr & _).
  exists w'. unfold transcribe_audio. cbn [negb].
  assert (Htruthy : str_truthy ct = true) by (now destruct ct).
  rewrite Htruthy, Hct. cbn [negb orb].
  unfold try_except, bind. rewrite Htr. reflexivity.
Qed.

End Code.

(* ===================================================================== *)
(** ** The properties at concrete inputs *)
(* ===================================================================== *)

Local Abbreviation demo_inference :=
  (unified_inference nat demo_pydantic_error unit demo_loads demo_as_list
     demo_turn demo_dumps demo_b64encode).

Local Abbreviation demo_transcribe_with :=
  (transcribe_with nat demo_random demo_uuid4 demo_write).

(** The configuration of the STT stage, without jitter. *)
Local Abbreviation demo_cfg := (mkRetryConfig 3 1 5 2 false).

Lemma demo_cfg_finite_delays : finite_delays nat demo_random demo_cfg 2.
Proof.
  intros a w Ha. rewrite calculate_delay_no_jitter by reflexivity. cbn [fst].
  assert (Hcases : a = 0 \/ a = 1) by lia.
  destruct Hcases as [-> | ->]; [exists 1%Q | exists 2%Q]; vm_compute; reflexivity.
Qed.

(** The classification the specification words and [should_retry] part
    on a message that says too many requests: none of the specification's
    rules covers it, and the code retries it. *)
Lemma should_retry_too_many_requests :
  should_retry (Exc Exception "Too Many Requests") = true
  /\ spec_should_retry (Exc Exception "Too Many Requests") = false.
Proof. split; vm_compute; reflexivity. Qed.

(** A message with both a retryable and a non-retryable token, on the
    first of three attempts. *)
Lemma should_retry_retryable_token_first_witness :
  should_retry (Exc Exception "Connection refused (HTTP 401)") = true
  /\ forall {A R} (func : A -> M nat R) (args : A) (config : RetryConfig)
       (attempt : Z) (rest : list Z) (last : option exn) (w w' : world nat),
       func args w = (Raise (Exc Exception "Connection refused (HTTP 401)"), w') ->
       attempt <> max_attempts config - 1 ->
       retry_loop nat demo_random func args config (attempt :: rest) last w
       = (delay <- calculate_delay nat demo_random config attempt ;;
          asyncio_sleep delay ;;;
          retry_loop nat demo_random func args config rest
            (Some (Exc Exception "Connection refused (HTTP 401)"))) w'.
Proof.
  apply (should_retry_retryable_token_first nat demo_random
           (Exc Exception "Connection refused (HTTP 401)") "connection" "401").
  - simpl. auto.
  - simpl. auto.
  - exists "", " refused (http 401)". reflexivity.
  - exists "connection refused (http ", ")". reflexivity.
Defined.



(** Primary and both fallbacks down: the error kept is the primary's. *)
Lemma execute_fallback_chain_exhausted_witness :
  fst (execute_fallback_chain nat STT
         (external "primary" id (always_fails (R := string) (Exc ConnectionError "primary down")))
         "primary" "x"
         (Some [ (external "fallback1" id (always_fails (Exc RuntimeError "first down")),
                  "fallback1");
                 (external "fallback2" id (always_fails (Exc RuntimeError "second down")),
                  "fallback2") ])
         demo_world)
  = Return (mkFallbackResult false None None (-1)
              (Some (Exc ConnectionError "primary down"))).
Proof.
  erewrite execute_fallback_chain_exhausted.
  - reflexivity.
  - reflexivity.
  - simpl candidates.
    eapply all_fail_cons; [reflexivity|].
    eapply all_fail_cons; [reflexivity|].
    apply all_fail_nil.
Defined.

(** Primary fails, fallback1 fails, fallback2 succeeds. *)
Lemma execute_fallback_chain_first_success_witness :
  fst (execute_fallback_chain nat TTS
         (external "primary" id (always_fails (Exc ConnectionError "primary down")))
         "primary" "x"
         (Some [ (external "fallback1" id (always_fails (Exc RuntimeError "first down")),
                  "fallback1");
                 (external "fallback2" id (always_answers "audio"), "fallback2") ])
         demo_world)
  = Return (mkFallbackResult true (Some "audio") (Some "fallback2") 2 None)
  /\ trace (snd (execute_fallback_chain nat TTS
         (external "primary" id (always_fails (Exc ConnectionError "primary down")))
         "primary" "x"
         (Some [ (external "fallback1" id (always_fails (Exc RuntimeError "first down")),
                  "fallback1");
                 (external "fallback2" id (always_answers "audio"), "fallback2") ])
         demo_world))
     = [Call "primary" "x"; Call "fallback1" "x"; Call "fallback2" "x"].
Proof.
  pose (p := external (S := nat) "primary" id
              (always_fails (R := string) (Exc ConnectionError "primary down"))).
  pose (f1 := external (S := nat) "fallback1" id
               (always_fails (R := string) (Exc RuntimeError "first down"))).
  pose (f2 := external (S := nat) "fallback2" id (always_answers "audio")).
  pose (w1 := snd (p "x" demo_world)).
  pose (w2 := snd (f1 "x" w1)).
  pose (w3 := snd (f2 "x" w2)).
  pose proof
    (execute_fallback_chain_first_success nat TTS p "primary" "x"
       [(f1, "fallback1")] [] f2 "fallback2" "audio"
       (Exc ConnectionError "primary down") demo_world w1 w2 w3
       eq_refl
       (all_fail_cons nat "x" f1 "fallback1" [] w1 w2 w2
          (Exc RuntimeError "first down") eq_refl
          (all_fail_nil nat "x" w2))
       eq_refl) as H.
  cbn [app] in H. subst p f1 f2. rewrite H.
  split; reflexivity.
Defined.



Lemma demo_request_accepted : accepted demo_request.
Proof.
  split.
  - exists "audio/wav". split; reflexivity.
  - vm_compute. split; [reflexivity | discriminate].
Qed.

(** The STT stage sleeps 31 seconds under its deadline of 30: the request
    ends in 504 and the only thing that happened is that sleep. *)
Lemma stt_timeout_aborts_pipeline_witness :
  fst (demo_inference
         (fun _ => asyncio_sleep 31 ;;; ret (Some "what is the weather"))
         (fun prompt history =>
            external "get_completion" fst (always_answers "It is sunny.")
              (prompt, history))
         (external "text_to_speech" id (always_answers ["RIFF"; "end."]))
         demo_request demo_world)
  = Raise (HTTPExc 504 "Speech recognition timed out")
  /\ trace (snd (demo_inference
         (fun _ => asyncio_sleep 31 ;;; ret (Some "what is the weather"))
         (fun prompt history =>
            external "get_completion" fst (always_answers "It is sunny.")
              (prompt, history))
         (external "text_to_speech" id (always_answers ["RIFF"; "end."]))
         demo_request demo_world))
     = [Sleep 31].
Proof.
  rewrite (stt_timeout_aborts_pipeline nat demo_pydantic_error unit demo_loads
             demo_as_list demo_turn demo_dumps demo_b64encode
             (fun _ => asyncio_sleep 31 ;;; ret (Some "what is the weather"))
             _ _ demo_request demo_world
             (strike (log_event (Sleep 31)
                        (set_deadline (Some (now demo_world + STT_TIMEOUT)%Q)
                           demo_world)))
             demo_request_accepted eq_refl eq_refl).
  split; reflexivity.
Defined.

(** An AI reply of 5001 characters: the request ends in 500 after the
    completion call, and the TTS service is not called. *)
Lemma overlong_reply_is_rejected_witness :
  exists detail,
    fst (demo_inference
           (external "transcribe" id (always_answers (Some "read me a story")))
           (fun prompt history =>
              external "get_completion" fst
                (always_answers (str_repeat "a" (Z.to_nat 5001))) (prompt, history))
           (external "text_to_speech" id (always_answers ["RIFF"; "end."]))
           demo_request demo_world)
    = Raise (HTTPExc 500 detail)
    /\ trace (snd (demo_inference
           (external "transcribe" id (always_answers (Some "read me a story")))
           (fun prompt history =>
              external "get_completion" fst
                (always_answers (str_repeat "a" (Z.to_nat 5001))) (prompt, history))
           (external "text_to_speech" id (always_answers ["RIFF"; "end."]))
           demo_request demo_world))
       = [Call "transcribe" "AUDIO"; Call "get_completion" "read me a story"].
Proof.
  pose (stt := external (S := nat) "transcribe" id
                 (always_answers (A := string) (Some "read me a story"))).
  pose (ai := fun prompt history =>
                external (S := nat) "get_completion" fst
                  (always_answers (A := string * option string)
                     (str_repeat "a" (Z.to_nat 5001)))
                  (prompt, history)).
  pose (w1 := snd (wait_for (stt "AUDIO") STT_TIMEOUT demo_world)).
  pose (w2 := snd (wait_for (ai "read me a story" None) AI_TIMEOUT w1)).
  destruct (overlong_reply_is_rejected nat demo_pydantic_error unit demo_loads
              demo_as_list demo_turn demo_dumps demo_b64encode
              stt ai
              (external "text_to_speech" id (always_answers ["RIFF"; "end."]))
              demo_request demo_world w1 w2 "read me a story"
              (str_repeat "a" (Z.to_nat 5001))
              demo_request_accepted eq_refl)
    as [detail H].
  - vm_compute. reflexivity.
  - vm_compute. reflexivity.
  - vm_compute. reflexivity.
  - vm_compute. reflexivity.
  - vm_compute. reflexivity.
  - exists detail. subst stt ai. rewrite H. split; [reflexivity|].
    vm_compute. reflexivity.
Defined.

(** ffmpeg fails before writing its output: what [transcribe] raises is
    the FileNotFoundError of its own cleanup, not ffmpeg's error. *)
Lemma transcribe_cleanup_replaces_ffmpeg_error_witness :
  fst (demo_transcribe_with demo_ffmpeg_fails demo_client
         (always_answers "hello") (STT_FALLBACK_CHAIN nat) "AUDIO" demo_world)
  = Raise (Exc FileNotFoundError
             "[Errno 2] No such file or directory: '/tmp/converted-1.wav'")
  /\ Raise (Exc FileNotFoundError
              "[Errno 2] No such file or directory: '/tmp/converted-1.wav'")
     <> Raise (X := option string) demo_ffmpeg_error.
Proof.
  destruct (transcribe_cleanup_replaces_ffmpeg_error nat demo_random demo_uuid4
              demo_write demo_ffmpeg_fails demo_client (always_answers "hello")
              (STT_FALLBACK_CHAIN nat) "AUDIO" demo_world "0" "1" 1%nat 2%nat 2%nat
              1%Q demo_ffmpeg_error eq_refl eq_refl eq_refl eq_refl)
    as (w' & H & _).
  - intros Heq. vm_compute in Heq. discriminate Heq.
  - reflexivity.
  - rewrite H. split; [reflexivity | discriminate].
Defined.



(* ===================================================================== *)
(** ** The further properties at concrete inputs *)
(* ===================================================================== *)

(** An authentication failure: one call, no sleep, the error as it was. *)
Lemma retry_async_non_retryable_witness :
  fst (retry_async nat demo_random
         (external "op" id
            (always_fails (R := string) (Exc Exception "HTTP 401 Unauthorized")))
         "x" (Some demo_cfg) "op" demo_world)
  = Raise (Exc Exception "HTTP 401 Unauthorized")
  /\ trace (snd (retry_async nat demo_random
         (external "op" id
            (always_fails (R := string) (Exc Exception "HTTP 401 Unauthorized")))
         "x" (Some demo_cfg) "op" demo_world))
     = [Call "op" "x"].
Proof.
  pose (f := external (S := nat) "op" id
               (always_fails (A := string) (R := string)
                  (Exc Exception "HTTP 401 Unauthorized"))).
  pose proof (retry_async_non_retryable nat demo_random f "x" demo_cfg "op"
                demo_world (snd (f "x" demo_world))
                (Exc Exception "HTTP 401 Unauthorized")) as H.
  subst f. rewrite H.
  - split; reflexivity.
  - simpl. lia.
  - reflexivity.
  - reflexivity.
Defined.

(** A configuration that allows no attempt. *)
Lemma retry_async_no_attempts_witness :
  retry_async nat demo_random
    (external "op" id (always_answers (R := string) "ok"))
    "x" (Some (mkRetryConfig 0 1 5 2 false)) "op" demo_world
  = (Raise (Exc TypeError "exceptions must derive from BaseException"), demo_world).
Proof.
  apply (retry_async_no_attempts nat demo_random
           (external "op" id (always_answers (R := string) "ok"))
           "x" (mkRetryConfig 0 1 5 2 false) "op" demo_world).
  simpl. lia.
Defined.

(** Two connection errors, then an answer, with three attempts allowed:
    three calls and two sleeps. *)
Lemma retry_async_eventual_success_witness :
  exists w' evs,
    retry_async nat demo_random
      (external "op" id
         (fails_until (A := string) 2 (Exc ConnectionError "Connection error.") "ok"))
      "x" (Some demo_cfg) "op" demo_world = (Return "ok", w')
    /\ trace w' = (trace demo_world ++ evs)%list
    /\ count_calls evs = 3%nat
    /\ count_sleeps evs = 2%nat.
Proof.
  apply (retry_async_eventual_success nat demo_random "op" id
           (fails_until (A := string) 2 (Exc ConnectionError "Connection error.") "ok")
           "x" "ok" (fun s => (2 - s)%nat)).
  - intros s. reflexivity.
  - intros s n Hn. unfold fails_until.
    assert (Hs : (s <? 2)%nat = true) by (apply Nat.ltb_lt; lia).
    rewrite Hs. do 3 eexists. split; [reflexivity|]. split; [reflexivity | lia].
  - intros s Hs. unfold fails_until.
    assert (Hs' : (s <? 2)%nat = false) by (apply Nat.ltb_ge; lia).
    rewrite Hs'. do 2 eexists. reflexivity.
  - simpl. lia.
  - reflexivity.
  - exact demo_cfg_finite_delays.
Defined.

(** The schedule of the STT stage with jitter, at attempt 1 and a draw of
    one half: a delay between 2 and 2.5 seconds. *)
Lemma calculate_delay_with_jitter_witness :
  exists d',
    calculate_delay nat demo_random (mkRetryConfig 3 1 5 2 true) 1 demo_world
    = (Return d', set_ext 0%nat demo_world)
    /\ fle (fround 2) d' = true
    /\ fle d' (fadd (Num 2) (fmul (Num 2) (Num (1 # 4)))) = true.
Proof.
  apply (calculate_delay_with_jitter nat demo_random
           (mkRetryConfig 3 1 5 2 true) 1 demo_world (Num 2) 2%Q (2 ^ 52) 0%nat).
  - reflexivity.
  - vm_compute. reflexivity.
  - vm_compute. reflexivity.
  - vm_compute. discriminate.
  - vm_compute. reflexivity.
  - reflexivity.
Defined.

(** A configuration with a negative base delay and an unreachable service:
    [retry_sync] ends in the ValueError of [time.sleep] after one call,
    where [retry_async] makes its three calls. *)
Lemma retry_sync_negative_delay_witness :
  retry_sync nat demo_random
    (external "op" id (always_fails (R := string) (Exc ConnectionError "unreachable")))
    "x" (Some (mkRetryConfig 3 (-1) 5 2 false)) "op" demo_world
  = (Raise (Exc ValueError "sleep length must be non-negative"),
     mkWorld 1%nat 1%Q None [Call "op" "x"] ∅)
  /\ fst (retry_async nat demo_random
            (external "op" id
               (always_fails (R := string) (Exc ConnectionError "unreachable")))
            "x" (Some (mkRetryConfig 3 (-1) 5 2 false)) "op" demo_world)
     = Raise (Exc ConnectionError "unreachable")
  /\ count_calls
       (trace (snd (retry_async nat demo_random
          (external "op" id
             (always_fails (R := string) (Exc ConnectionError "unreachable")))
          "x" (Some (mkRetryConfig 3 (-1) 5 2 false)) "op" demo_world)))
     = 3%nat.
Proof.
  split; [|split; vm_compute; reflexivity].
  apply (retry_sync_negative_delay nat demo_random
           (external "op" id
              (always_fails (R := string) (Exc ConnectionError "unreachable")))
           "x" (mkRetryConfig 3 (-1) 5 2 false) "op" demo_world
           (mkWorld 1%nat 1%Q None [Call "op" "x"] ∅)
           (mkWorld 1%nat 1%Q None [Call "op" "x"] ∅)
           (Exc ConnectionError "unreachable") (-1)%Q).
  - simpl. lia.
  - vm_compute. reflexivity.
  - reflexivity.
  - vm_compute. reflexivity.
  - reflexivity.
  - vm_compute. reflexivity.
Defined.

(** Eleven bytes in chunks of four. *)
Lemma iter_bytes_chunks_witness :
  exists chunks,
    iter_bytes "hello world" 4 = inr chunks
    /\ bytes_join chunks = "hello world"
    /\ List.Forall (fun chunk => 0 < len chunk <= 4) chunks
    /\ Z.of_nat (length chunks) = (len "hello world" + 4 - 1) / 4.
Proof.
  apply (iter_bytes_chunks "hello world" 4). lia.
Defined.

(** A transcription that works: the transcript, and /tmp as it was. *)
Lemma transcribe_success_witness :
  exists w',
    transcribe nat demo_random demo_uuid4 demo_write demo_ffmpeg demo_client
      (always_answers "hello") "AUDIO" demo_world = (Return (Some "hello"), w')
    /\ files w' = files demo_world
    /\ trace w'
       = (trace demo_world ++ [Call "client.audio.transcriptions.create" "pcm"])%list.
Proof.
  apply (transcribe_success nat demo_random demo_uuid4 demo_write demo_ffmpeg
           demo_client (always_answers "hello") "AUDIO" demo_world "0" "1"
           1%nat 2%nat 2%nat 3%nat 1%Q 1%Q "pcm" "hello").
  - reflexivity.
  - reflexivity.
  - reflexivity.
  - reflexivity.
  - reflexivity.
  - reflexivity.
  - reflexivity.
  - intros Heq. vm_compute in Heq. discriminate Heq.
  - apply lookup_empty.
  - apply lookup_empty.
Defined.

(** ffmpeg fails after writing part of its output: its own error comes
    out, and /tmp is as it was. *)
Lemma transcribe_ffmpeg_partial_output_witness :
  exists w',
    demo_transcribe_with demo_ffmpeg_partial demo_client (always_answers "hello")
      (STT_FALLBACK_CHAIN nat) "AUDIO" demo_world = (Raise demo_ffmpeg_error, w')
    /\ files w' = files demo_world
    /\ trace w' = trace demo_world.
Proof.
  apply (transcribe_ffmpeg_partial_output nat demo_random demo_uuid4 demo_write
           demo_ffmpeg_partial demo_client (always_answers "hello")
           (STT_FALLBACK_CHAIN nat) "AUDIO" demo_world "0" "1"
           1%nat 2%nat 2%nat 1%Q "pc" demo_ffmpeg_error).
  - reflexivity.
  - reflexivity.
  - reflexivity.
  - reflexivity.
  - intros Heq. vm_compute in Heq. discriminate Heq.
  - apply lookup_empty.
  - apply lookup_empty.
Defined.

(** A deadline of one second and a half over a conversion and a call of
    one second each: cancelled in the call, and /tmp as it was. *)
Lemma transcribe_cancelled_witness :
  exists w',
    demo_transcribe_with demo_ffmpeg demo_client (always_answers "hello")
      (STT_FALLBACK_CHAIN nat) "AUDIO" (mkWorld 0%nat 0%Q (Some (3 # 2)%Q) [] ∅)
    = (Cancelled, w')
    /\ files w' = files (mkWorld 0%nat 0%Q (Some (3 # 2)%Q) [] ∅)
    /\ trace w'
       = (trace (mkWorld 0%nat 0%Q (Some (3 # 2)%Q) [] ∅)
          ++ [Call "client.audio.transcriptions.create" "pcm"])%list.
Proof.
  apply (transcribe_cancelled nat demo_random demo_uuid4 demo_write demo_ffmpeg
           demo_client (always_answers "hello") (STT_FALLBACK_CHAIN nat) "AUDIO"
           (mkWorld 0%nat 0%Q (Some (3 # 2)%Q) [] ∅) "0" "1"
           1%nat 2%nat 2%nat 3%nat (3 # 2)%Q 1%Q 1%Q "pcm" (inr "hello")).
  - reflexivity.
  - reflexivity.
  - reflexivity.
  - reflexivity.
  - reflexivity.
  - reflexivity.
  - reflexivity.
  - reflexivity.
  - intros Heq. vm_compute in Heq. discriminate Heq.
  - apply lookup_empty.
  - apply lookup_empty.
Defined.

Local Abbreviation demo_stt :=
  (external (S := nat) "transcribe" id
     (always_answers (A := string) (Some "what is the weather"))).

Local Abbreviation demo_ai :=
  (fun prompt history =>
     external (S := nat) "get_completion" fst
       (always_answers (A := string * option string) "It is sunny.")
       (prompt, history)).

Local Abbreviation demo_tts :=
  (external (S := nat) "text_to_speech" id
     (always_answers (A := string) ["RIFF"; "end."])).

(** An upload that is not audio: 400, and nothing has run. *)
Lemma unified_inference_rejects_early_witness :
  exists status detail,
    demo_inference demo_stt demo_ai demo_tts
      (mkRequest (Some "text/plain") "AUDIO" None) demo_world
    = (Raise (HTTPExc status detail), demo_world)
    /\ (status = 400 \/ status = 413).
Proof.
  apply (unified_inference_rejects_early nat demo_pydantic_error unit demo_loads
           demo_as_list demo_turn demo_dumps demo_b64encode
           demo_stt demo_ai demo_tts
           (mkRequest (Some "text/plain") "AUDIO" None) demo_world).
  intros [(ct & Hct & Haudio) _]. inversion Hct; subst ct.
  vm_compute in Haudio. discriminate Haudio.
Defined.

(** ffmpeg fails before writing its output: the request ends in 500 and
    the detail is the FileNotFoundError of the cleanup of [transcribe]. *)
Lemma stt_stage_error_witness :
  fst (demo_inference
         (demo_transcribe_with demo_ffmpeg_fails demo_client
            (always_answers "hello") (STT_FALLBACK_CHAIN nat))
         demo_ai demo_tts demo_request demo_world)
  = Raise (HTTPExc 500
             "Speech recognition failed: [Errno 2] No such file or directory: '/tmp/converted-1.wav'").
Proof.
  pose (stt := demo_transcribe_with demo_ffmpeg_fails demo_client
                 (always_answers "hello") (STT_FALLBACK_CHAIN nat)).
  pose proof (stt_stage_error nat demo_pydantic_error unit demo_loads
                demo_as_list demo_turn demo_dumps demo_b64encode
                stt demo_ai demo_tts demo_request demo_world
                (snd (wait_for (stt "AUDIO") STT_TIMEOUT demo_world))
                (Exc FileNotFoundError
                   "[Errno 2] No such file or directory: '/tmp/converted-1.wav'")
                demo_request_accepted) as H.
  subst stt. rewrite H.
  - reflexivity.
  - vm_compute. reflexivity.
Defined.

(** A transcript of three spaces: 400 after the one STT call. *)
Lemma blank_transcript_rejected_witness :
  fst (demo_inference
         (external "transcribe" id (always_answers (Some "   ")))
         demo_ai demo_tts demo_request demo_world)
  = Raise (HTTPExc 400 "Could not transcribe audio - please speak clearly")
  /\ trace (snd (demo_inference
         (external "transcribe" id (always_answers (Some "   ")))
         demo_ai demo_tts demo_request demo_world))
     = [Call "transcribe" "AUDIO"].
Proof.
  pose (stt := external (S := nat) "transcribe" id
                 (always_answers (A := string) (Some "   "))).
  pose proof (blank_transcript_rejected nat demo_pydantic_error unit demo_loads
                demo_as_list demo_turn demo_dumps demo_b64encode
                stt demo_ai demo_tts demo_request demo_world
                (snd (wait_for (stt "AUDIO") STT_TIMEOUT demo_world)) "   "
                demo_request_accepted) as H.
  subst stt. rewrite H.
  - split; reflexivity.
  - vm_compute. reflexivity.
  - reflexivity.
Defined.

(** The completion service answers with a rate-limit error: 500 with the
    error's text, and the TTS service is not called. *)
Lemma ai_stage_error_witness :
  fst (demo_inference demo_stt
         (fun prompt history =>
            external "get_completion" fst
              (always_fails (Exc APIError "Rate limit reached")) (prompt, history))
         demo_tts demo_request demo_world)
  = Raise (HTTPExc 500 "AI processing failed: Rate limit reached")
  /\ trace (snd (demo_inference demo_stt
         (fun prompt history =>
            external "get_completion" fst
              (always_fails (Exc APIError "Rate limit reached")) (prompt, history))
         demo_tts demo_request demo_world))
     = [Call "transcribe" "AUDIO"; Call "get_completion" "what is the weather"].
Proof.
  pose (ai := fun prompt history =>
                external (S := nat) "get_completion" fst
                  (always_fails (A := string * option string) (R := string)
                     (Exc APIError "Rate limit reached"))
                  (prompt, history)).
  pose (w1 := snd (wait_for (demo_stt "AUDIO") STT_TIMEOUT demo_world)).
  pose proof (ai_stage_error nat demo_pydantic_error unit demo_loads
                demo_as_list demo_turn demo_dumps demo_b64encode
                demo_stt ai demo_tts demo_request demo_world w1
                (snd (wait_for (ai "what is the weather" None) AI_TIMEOUT w1))
                "what is the weather" [] (Exc APIError "Rate limit reached")
                demo_request_accepted) as H.
  subst ai w1. rewrite H.
  - split; reflexivity.
  - vm_compute. reflexivity.
  - reflexivity.
  - reflexivity.
  - vm_compute. reflexivity.
Defined.

(** A completion service that raises the builtin TimeoutError at once:
    asyncio.TimeoutError is the same class, so the handler of the stage
    answers with status 504, as for a stage cut by its deadline. *)
Example ai_stage_builtin_timeout :
  fst (demo_inference demo_stt
         (fun prompt history =>
            external "get_completion" fst
              (always_fails (Exc TimeoutError "timed out")) (prompt, history))
         demo_tts demo_request demo_world)
  = Raise (HTTPExc 504 "AI response timed out").
Proof. vm_compute. reflexivity. Qed.

(** A reply of two spaces: 500, and the TTS service is not called. *)
Lemma blank_reply_rejected_witness :
  fst (demo_inference demo_stt
         (fun prompt history =>
            external "get_completion" fst (always_answers "  ") (prompt, history))
         demo_tts demo_request demo_world)
  = Raise (HTTPExc 500 "AI returned empty response")
  /\ trace (snd (demo_inference demo_stt
         (fun prompt history =>
            external "get_completion" fst (always_answers "  ") (prompt, history))
         demo_tts demo_request demo_world))
     = [Call "transcribe" "AUDIO"; Call "get_completion" "what is the weather"].
Proof.
  pose (ai := fun prompt history =>
                external (S := nat) "get_completion" fst
                  (always_answers (A := string * option string) "  ")
                  (prompt, history)).
  pose (w1 := snd (wait_for (demo_stt "AUDIO") STT_TIMEOUT demo_world)).
  pose proof (blank_reply_rejected nat demo_pydantic_error unit demo_loads
                demo_as_list demo_turn demo_dumps demo_b64encode
                demo_stt ai demo_tts demo_request demo_world w1
                (snd (wait_for (ai "what is the weather" None) AI_TIMEOUT w1))
                "what is the weather" "  " []
                demo_request_accepted) as H.
  subst ai w1. rewrite H.
  - split; reflexivity.
  - vm_compute. reflexivity.
  - reflexivity.
  - reflexivity.
  - vm_compute. reflexivity.
  - reflexivity.
Defined.

(** Every stage answers, and the request carries a history of two turns:
    the completion service is called with that history, and the
    conversation of the response is the current turn alone. *)
Lemma unified_inference_response_witness :
  fst (unified_inference nat demo_pydantic_error (string * string)
         demo_history_loads demo_history_as_list demo_history_turn
         demo_history_dumps demo_b64encode
         demo_stt
         (fun prompt history =>
            external "get_completion"
              (fun a => match snd a with Some h => h | None => "-" end)
              (always_answers "It is sunny.") (prompt, history))
         demo_tts demo_request_with_history demo_world)
  = Return (mkResponse ["RIFF"; "end."] "audio/mpeg" 1 1
              "what is the weather" "It is sunny."
              "user:what is the weather;assistant:It is sunny.")
  /\ trace (snd (unified_inference nat demo_pydantic_error (string * string)
         demo_history_loads demo_history_as_list demo_history_turn
         demo_history_dumps demo_b64encode
         demo_stt
         (fun prompt history =>
            external "get_completion"
              (fun a => match snd a with Some h => h | None => "-" end)
              (always_answers "It is sunny.") (prompt, history))
         demo_tts demo_request_with_history demo_world))
     = [Call "transcribe" "AUDIO";
        Call "get_completion" "user:hi;assistant:hello";
        Call "text_to_speech" "It is sunny."].
Proof.
  pose (ai := fun prompt history =>
                external (S := nat) "get_completion"
                  (fun a : string * option string =>
                     match snd a with Some h => h | None => "-" end)
                  (always_answers "It is sunny.") (prompt, history)).
  pose (w1 := snd (wait_for (demo_stt "AUDIO") STT_TIMEOUT demo_world)).
  pose (w2 := snd (wait_for
                     (ai "what is the weather"
                        (Some (demo_history_dumps demo_history)))
                     AI_TIMEOUT w1)).
  pose proof (unified_inference_response nat demo_pydantic_error (string * string)
                demo_history_loads demo_history_as_list demo_history_turn
                demo_history_dumps demo_b64encode
                demo_stt ai demo_tts demo_request_with_history demo_world w1 w2
                (snd (wait_for (demo_tts "It is sunny.") TTS_TIMEOUT w2))
                "what is the weather" "It is sunny." demo_history
                ["RIFF"; "end."]) as H.
  subst ai w1 w2. rewrite H.
  - split; vm_compute; reflexivity.
  - split.
    + exists "audio/wav". split; reflexivity.
    + vm_compute. split; [reflexivity | discriminate].
  - vm_compute. reflexivity.
  - reflexivity.
  - reflexivity.
  - vm_compute. reflexivity.
  - reflexivity.
  - vm_compute. discriminate.
  - vm_compute. reflexivity.
Defined.

(** A transcript of a thousand spaces and then a word: the request ends
    in the 500 of the AI stage, and the provider is not called. *)
Lemma whitespace_prefix_fails_in_ai_stage_witness :
  fst (demo_inference
         (external "transcribe" id
            (always_answers (Some (str_repeat " " 1000 ++ "hi"))))
         (get_completion nat
            (fun prompt history =>
               external "provider" fst (always_answers "It is sunny.")
                 (prompt, history)))
         demo_tts demo_request demo_world)
  = Raise (HTTPExc 500 "AI processing failed: empty user prompt received")
  /\ trace (snd (demo_inference
         (external "transcribe" id
            (always_answers (Some (str_repeat " " 1000 ++ "hi"))))
         (get_completion nat
            (fun prompt history =>
               external "provider" fst (always_answers "It is sunny.")
                 (prompt, history)))
         demo_tts demo_request demo_world))
     = [Call "transcribe" "AUDIO"].
Proof.
  pose (stt := external (S := nat) "transcribe" id
                 (always_answers (A := string)
                    (Some (str_repeat " " 1000 ++ "hi")))).
  pose (rest := fun (prompt : string) (history : option string) =>
                  external (S := nat) "provider" fst
                    (always_answers "It is sunny.") (prompt, history)).
  pose proof (whitespace_prefix_fails_in_ai_stage nat demo_pydantic_error unit
                demo_loads demo_as_list demo_turn demo_dumps demo_b64encode
                rest stt demo_tts demo_request demo_world
                (snd (wait_for (stt "AUDIO") STT_TIMEOUT demo_world))
                (str_repeat " " 1000 ++ "hi")
                demo_request_accepted) as H.
  subst stt rest. rewrite H.
  - split; reflexivity.
  - vm_compute. reflexivity.
  - vm_compute. reflexivity.
  - vm_compute. reflexivity.
  - vm_compute. reflexivity.
  - intros c e Hc. discriminate Hc.
Defined.

(** The route over an unreachable endpoint: [success], with the text-only
    message as the transcript. *)
Lemma transcribe_audio_endpoint_down_witness :
  exists w',
    transcribe_audio nat demo_random demo_uuid4 demo_write demo_ffmpeg demo_client
      (always_fails (Exc ConnectionError "Connection error."))
      true (Some "audio/webm") "AUDIO" demo_world
    = (Return
         (mkTranscription "success"
            "[Speech recognition unavailable - please type your message]"),
       w').
Proof.
  apply (transcribe_audio_endpoint_down nat demo_random demo_uuid4 demo_write
           demo_ffmpeg demo_client
           (always_fails (Exc ConnectionError "Connection error."))
           "audio/webm" "AUDIO" demo_world "0" "1" 1%nat 2%nat 2%nat 1%Q "pcm").
  - reflexivity.
  - reflexivity.
  - reflexivity.
  - reflexivity.
  - reflexivity.
  - reflexivity.
  - intros Heq. vm_compute in Heq. discriminate Heq.
  - intros a s. do 3 eexists. reflexivity.
Defined.
